(** * goncurses: the Go binding over the native curses library

    The binding is a thin layer over cgo: each Go function converts its
    arguments to C types, calls one or two entry points of the native
    library, and turns the sentinel the native call returns into a Go
    [error].  The development below embeds the Go functions as programs
    that *request* native calls (a free monad over the calls), so that a
    property of a Go function can be stated for every behaviour of the
    native library, or against a model of it.

    Two sources are embedded:
    - [Ncurses]   : src/ncurses.go (package goncurses);
    - [Goncurses] : the package source carried by
                    src/examples/color/color.go (its third part, the one
                    that defines [Window]). *)

From Stdlib Require Import ZArith Lia List Bool.
From Stdlib.Strings Require Import Byte.
From stdpp Require Import base numbers option list strings pretty gmap.

Local Open Scope Z_scope.

(* ===================================================================== *)
(** ** Integer types of Go and C, as cgo converts between them           *)
(* ===================================================================== *)

Module CTypes.

(** Conversion to a signed integer type of [bits] bits keeps the low
    [bits] bits and reads them in two's complement. *)
Definition wrap_signed (bits v : Z) : Z :=
  (v + 2 ^ (bits - 1)) mod 2 ^ bits - 2 ^ (bits - 1).

(** Conversion to an unsigned integer type of [bits] bits. *)
Definition wrap_unsigned (bits v : Z) : Z := v mod 2 ^ bits.

(** [C.int(v)], [C.short(v)] and Go's [int(v)] (64-bit platforms). *)
Definition cint : Z -> Z := wrap_signed 32.
Definition cshort : Z -> Z := wrap_signed 16.
Definition goint : Z -> Z := wrap_signed 64.

Definition in_cint (v : Z) : Prop := - 2 ^ 31 <= v < 2 ^ 31.
Definition in_int16 (v : Z) : Prop := - 2 ^ 15 <= v < 2 ^ 15.
Definition in_goint (v : Z) : Prop := - 2 ^ 63 <= v < 2 ^ 63.

(** A Go [byte] read as an integer. *)
Definition byte_val (b : byte) : Z := Z.of_N (Byte.to_N b).

(** Sentinels of <curses.h>, and the nil pointer. *)
Definition ERR : Z := -1.
Definition OK : Z := 0.
Definition NULL : Z := 0.

End CTypes.
Export CTypes.

(* ===================================================================== *)
(** ** Native calls and Go programs                                       *)
(* ===================================================================== *)

Module Native.

(** The entry points of the native library that the embedded Go functions
    reach through cgo, with the arguments as they cross the boundary.
    A [WINDOW*] is an address; [NULL] is the nil pointer. *)
Inductive ccall : Type :=
| c_waddch (win ch : Z)
| c_mvwaddch (win y x ch : Z)
| c_waddstr (win : Z) (s : string)
| c_mvwaddstr (win y x : Z) (s : string)
| c_wdelch (win : Z)
| c_mvwdelch (win y x : Z)
| c_wgetch (win : Z)
| c_mvwgetch (win y x : Z)
| c_wattron (win attr : Z)
| c_wattroff (win attr : Z)
| c_COLOR_PAIR (n : Z)
| c_init_pair (pair fg bg : Z)
| c_halfdelay (tenths : Z)
| c_has_mouse
| c_mousemask (newmask old : Z)
| c_newwin (h w y x : Z)
| c_subwin (orig h w y x : Z)
| c_derwin (orig h w y x : Z)
| c_delwin (win : Z)
| c_wnoutrefresh (win : Z)
| c_wrefresh (win : Z)
| c_doupdate.

(** Run-time panics of the Go functions below. *)
Inductive panic : Type :=
| IndexOutOfRange
| TypeAssertion
| NilDereference.

(** A Go function body: it returns, panics, or makes a native call and
    goes on with the value the call returned. *)
Inductive go (A : Type) : Type :=
| Return (a : A)
| Panic (p : panic)
| Call (c : ccall) (k : Z -> go A).

Arguments Return {A} a.
Arguments Panic {A} p.
Arguments Call {A} c k.

Fixpoint bind {A B : Type} (m : go A) (f : A -> go B) : go B :=
  match m with
  | Return a => f a
  | Panic p => Panic p
  | Call c k => Call c (fun r => bind (k r) f)
  end.

#[global] Instance go_ret : MRet go := @Return.
#[global] Instance go_bind : MBind go := fun A B f m => bind m f.

(** Typed native calls: the value that comes back has the C type of the
    entry point's result. *)
Definition call_int (c : ccall) : go Z := Call c (fun r => Return (cint r)).
Definition call_ptr (c : ccall) : go Z := Call c (fun r => Return r).
Definition call_bool (c : ccall) : go bool :=
  Call c (fun r => Return (negb (r =? 0))).
Definition call_unsigned (bits : Z) (c : ccall) : go Z :=
  Call c (fun r => Return (wrap_unsigned bits r)).
Definition call_void (c : ccall) : go unit := Call c (fun _ => Return tt).

(** What a finished Go call leaves the caller with. *)
Inductive outcome (A : Type) : Type :=
| Returned (a : A)
| Panicked (p : panic).

Arguments Returned {A} a.
Arguments Panicked {A} p.

(** A native library is a handler of the calls over its own state; [None]
    means the handler gives no meaning to the call. *)
Definition handler (S : Type) : Type := ccall -> S -> option (Z * S).

Fixpoint run {S A : Type} (exec : handler S) (p : go A) (s : S)
  : option (outcome A * S) :=
  match p with
  | Return a => Some (Returned a, s)
  | Panic e => Some (Panicked e, s)
  | Call c k =>
      match exec c s with
      | Some (r, s') => run exec (k r) s'
      | None => None
      end
  end.

(** The native calls a program makes, in order. *)
Fixpoint calls {S A : Type} (exec : handler S) (p : go A) (s : S)
  : list ccall :=
  match p with
  | Return _ | Panic _ => []
  | Call c k =>
      c :: match exec c s with
           | Some (r, s') => calls exec (k r) s'
           | None => []
           end
  end.

(** Go's [error]: [None] is [nil]. *)
Definition error : Type := option string.

(** [args[i]] on a slice. *)
Definition index {A : Type} (args : list A) (i : Z) : go A :=
  if (0 <=? i) && (i <? Z.of_nat (length args)) then
    match args !! Z.to_nat i with
    | Some a => Return a
    | None => Panic IndexOutOfRange
    end
  else Panic IndexOutOfRange.

(** [len(args)]. *)
Definition len {A : Type} (args : list A) : Z := Z.of_nat (length args).

(** Where on a window a drawing call takes effect, given the window's
    cursor: the [mvw] form of a routine moves the cursor to (y, x) first,
    the [w] form works at the cursor. *)
Definition target (c : ccall) (cursor : Z * Z) : option (Z * Z) :=
  match c with
  | c_mvwaddch _ y x _ | c_mvwaddstr _ y x _
  | c_mvwdelch _ y x | c_mvwgetch _ y x => Some (y, x)
  | c_waddch _ _ | c_waddstr _ _ | c_wdelch _ | c_wgetch _ => Some cursor
  | _ => None
  end.

(** The places where the drawing calls of a program take effect. *)
Definition targets {S A : Type} (exec : handler S) (p : go A) (s : S)
    (cursor : Z * Z) : list (Z * Z) :=
  omap (fun c => target c cursor) (calls exec p s).

(** What a run leaves behind that the native side and the caller's
    control flow can tell apart: the final native state, and whether the
    call failed (a non-nil error, or a panic). *)
Definition failed (r : outcome error) : bool :=
  match r with
  | Returned None => false
  | Returned (Some _) | Panicked _ => true
  end.

Definition effect {S : Type} (r : option (outcome error * S))
  : option (bool * S) :=
  match r with
  | Some (o, s) => Some (failed o, s)
  | None => None
  end.

End Native.
Export Native.

(* ===================================================================== *)
(** ** The package of src/examples/color/color.go                         *)
(* ===================================================================== *)

Module Goncurses.

(** [type Window struct { win *C.WINDOW }] *)
Record Window : Type := { win : Z }.

(** A value passed as [interface{}]: an [int], a [string], the nil
    interface, or a value of another dynamic type (named as [reflect]
    prints it). *)
Inductive iface : Type :=
| I_int (n : Z)
| I_string (s : string)
| I_nil
| I_other (tyname : string).

(** [reflect.TypeOf(a).String() == "int"]: [TypeOf] of the nil interface
    is nil, and [String] on it dereferences nil. *)
Definition type_is_int (a : iface) : go bool :=
  match a with
  | I_int _ => Return true
  | I_nil => Panic NilDereference
  | I_string _ | I_other _ => Return false
  end.

(** [a.(int)] and [a.(string)]. *)
Definition assert_int (a : iface) : go Z :=
  match a with
  | I_int n => Return n
  | _ => Panic TypeAssertion
  end.

Definition assert_string (a : iface) : go string :=
  match a with
  | I_string s => Return s
  | _ => Panic TypeAssertion
  end.

(** What the caller of a function gets back, value by value, as the
    function's result list declares them. *)
Inductive goval : Type :=
| V_window (w : Window)
| V_error (e : error)
| V_int (n : Z).

(** Some returned value is a non-nil [error]. *)
Definition reports_error (rs : list goval) : bool :=
  existsb (fun v => match v with V_error (Some _) => true | _ => false end) rs.

(** The Go heap, as far as [*Window] pointers reach into it. *)
Definition heap : Type := gmap Z Window.

Section Cgo.

(** Widths of [chtype] and [mmask_t], the C global [COLOR_PAIRS] at the
    time of the call, [fmt.Sprintf], and the lookup [attrList[a]] (the
    table's keys are macros of <curses.h>). *)
Variable chtype_bits : Z.
Variable mmask_bits : Z.
Variable COLOR_PAIRS : Z.
Variable Sprintf : string -> list iface -> string.
Variable attrList : Z -> string.

(** color.go:420 *)
Definition ColorPair (pair : Z) : go Z :=
  a ← call_int (c_COLOR_PAIR (cint pair));
  Return (goint a).

(** color.go:478 *)
Definition HalfDelay (delay : Z) : go error :=
  let cerr := 0 in
  cerr ← (if 0 <? delay then call_int (c_halfdelay (cint delay))
          else Return cerr);
  if cerr =? ERR then Return (Some "Unable to set delay mode")
  else Return None.

(** color.go:513 *)
Definition InitPair (pair : byte) (fg bg : Z) : go error :=
  if (byte_val pair =? 0)
     || (cint (cint COLOR_PAIRS - 1) <? cint (byte_val pair))
  then Return (Some "Invalid color pair selected")
  else
    r ← call_int (c_init_pair (cshort (byte_val pair)) (cshort fg) (cshort bg));
    if r =? ERR then Return (Some "Failed to init color pair")
    else Return None.

(** color.go:564 *)
Definition MouseMask (mask old : Z) : go Z :=
  let m := 0 in
  has ← call_bool c_has_mouse;
  if has : bool then
    r ← call_unsigned mmask_bits
          (c_mousemask (wrap_unsigned mmask_bits mask) old);
    Return (goint r)
  else Return m.

(** color.go:573 *)
Definition NewWindow (h w y x : Z) : go (Window * error) :=
  p ← call_ptr (c_newwin (cint h) (cint w) (cint y) (cint x));
  let window := {| win := p |} in
  if win window =? NULL then
    Return (window, Some "Failed to create a new window")
  else Return (window, None).

(** color.go:623 *)
Definition Update : go error :=
  r ← call_int c_doupdate;
  if r =? ERR then Return (Some "Failed to update") else Return None.

(** color.go:671 *)
Definition AddChar (w : Window) (args : list Z) : go unit :=
  let cattr := 0 in
  let count := 0 in
  let y := 0 in
  let x := 0 in
  '(y, count) ← (if 1 <? len args then
                   a ← index args 0; Return (a, count + 1)
                 else Return (y, count));
  '(x, count) ← (if 2 <? len args then
                   a ← index args 1; Return (a, count + 1)
                 else Return (x, count));
  a ← index args count;
  let cattr := Z.lor cattr (cint a) in
  if 0 <? count then
    call_void (c_mvwaddch (win w) (cint y) (cint x)
                 (wrap_unsigned chtype_bits cattr))
  else call_void (c_waddch (win w) (wrap_unsigned chtype_bits cattr)).

(** color.go:692 *)
Definition AttrOff (w : Window) (attr : Z) : go error :=
  r ← call_int (c_wattroff (win w) (cint attr));
  if r =? ERR then
    Return (Some ("Failed to unset attribute: " +:+ attrList (cint attr)))
  else Return None.

(** color.go:701 *)
Definition AttrOn (w : Window) (attr : Z) : go error :=
  r ← call_int (c_wattron (win w) (cint attr));
  if r =? ERR then
    Return (Some ("Failed to set attribute: " +:+ attrList (cint attr)))
  else Return None.

(** color.go:773 *)
Definition ColorOff (w : Window) (pair : byte) : go error :=
  a ← call_int (c_COLOR_PAIR (cint (byte_val pair)));
  r ← call_int (c_wattroff (win w) a);
  if r =? ERR then Return (Some "Failed to enable color pair")
  else Return None.

(** color.go:782 *)
Definition ColorOn (w : Window) (pair : byte) : go error :=
  a ← call_int (c_COLOR_PAIR (cint (byte_val pair)));
  r ← call_int (c_wattron (win w) a);
  if r =? ERR then Return (Some "Failed to enable color pair")
  else Return None.

(** color.go:806 *)
Definition DelChar (w : Window) (coord : list Z) : go error :=
  if 2 <? len coord then
    Return (Some ("Invalid number of arguments, expected 2, got "
                  +:+ pretty (len coord)))
  else
    err ← (if 1 <? len coord then
             let x := 0 in
             y ← index coord 0;
             x ← (if 2 <? len coord then index coord 1 else Return x);
             call_int (c_mvwdelch (win w) (cint y) (cint x))
           else call_int (c_wdelch (win w)));
    if negb (err =? OK) then
      Return (Some "An error occurred when trying to delete character")
    else Return None.

(** color.go:830.  The receiver [w] is a pointer, passed by value: the
    result carries the callee's own [w] as it stands at the return, and
    the heap as the body leaves it. *)
Definition Delete (h : heap) (w : Z) : go (error * Z * heap) :=
  match h !! w with
  | None => Panic NilDereference
  | Some this =>
      r ← call_int (c_delwin (win this));
      if r =? ERR then Return (Some "Failed to delete window", w, h)
      else
        let w := NULL in
        Return (None, w, h)
  end.

(** color.go:842 *)
Definition Derived (w : Window) (height width y x : Z) : go Window :=
  p ← call_ptr (c_derwin (win w) (cint height) (cint width) (cint y) (cint x));
  Return {| win := p |}.

(** color.go:863 *)
Definition GetChar (w : Window) (coords : list Z) : go Z :=
  let y := 0 in
  let x := 0 in
  let count := 0 in
  '(y, count) ← (if 1 <? len coords then
                   a ← index coords 0; Return (a, count + 1)
                 else Return (y, count));
  '(x, count) ← (if 2 <? len coords then
                   a ← index coords 1; Return (a, count + 1)
                 else Return (x, count));
  if 0 <? count then
    r ← call_int (c_mvwgetch (win w) (cint y) (cint x)); Return (goint r)
  else
    r ← call_int (c_wgetch (win w)); Return (goint r).

(** color.go:942 *)
Definition NoutRefresh (w : Window) : go unit :=
  call_void (c_wnoutrefresh (win w)).

(** color.go:980.  The C copy of the string and its deferred [free] are
    left out: the string crosses the boundary by value. *)
Definition Print (w : Window) (args : list iface) : go unit :=
  let count := 0 in
  let y := 0 in
  let x := 0 in
  '(y, count) ← (if 1 <? len args then
                   a ← index args 0;
                   is_int ← type_is_int a;
                   if is_int : bool then
                     n ← assert_int a; Return (n, count + 1)
                   else Return (y, count)
                 else Return (y, count));
  '(x, count) ← (if 2 <? len args then
                   a ← index args 1;
                   is_int ← type_is_int a;
                   if is_int : bool then
                     n ← assert_int a; Return (n, count + 1)
                   else Return (x, count)
                 else Return (x, count));
  f ← index args count;
  format ← assert_string f;
  let cstr := Sprintf format (drop (Z.to_nat (count + 1)) args) in
  if 0 <? count then call_void (c_mvwaddstr (win w) (cint y) (cint x) cstr)
  else call_void (c_waddstr (win w) cstr).

(** color.go:1007 *)
Definition Refresh (w : Window) : go unit :=
  call_void (c_wrefresh (win w)).

(** color.go:1032 *)
Definition Sub (w : Window) (height width y x : Z) : go Window :=
  p ← call_ptr (c_subwin (win w) (cint height) (cint width) (cint y) (cint x));
  Return {| win := p |}.

End Cgo.

(** The result lists of the window constructors, as declared:
    [NewWindow(...) (window Window, err error)] and [Sub(...) Window]. *)
Definition NewWindow_results (r : Window * error) : list goval :=
  [V_window (fst r); V_error (snd r)].
Definition Sub_results (r : Window) : list goval := [V_window r].

End Goncurses.

(* ===================================================================== *)
(** ** src/ncurses.go                                                     *)
(* ===================================================================== *)

Module Ncurses.

Section Cgo.

Variable mmask_bits : Z.
Variable COLOR_PAIRS : Z.

(** The conversion to the package's [Char], a type that src/ncurses.go
    uses and does not declare. *)
Variable Char : Z -> Z.

(** ncurses.go:87.  [pair] is an [int16]. *)
Definition ColorPair (pair : Z) : go Z :=
  a ← call_int (c_COLOR_PAIR (cint pair));
  Return (Char a).

(** ncurses.go:153 *)
Definition HalfDelay (delay : Z) : go error :=
  let cerr := 0 in
  cerr ← (if 0 <? delay then call_int (c_halfdelay (cint delay))
          else Return cerr);
  if cerr =? ERR then Return (Some "Unable to set delay mode")
  else Return None.

(** ncurses.go:200.  [pair], [fg] and [bg] are [int16]. *)
Definition InitPair (pair fg bg : Z) : go error :=
  if (pair =? 0) || (cshort (cint (cint COLOR_PAIRS - 1)) <? cshort pair)
  then Return (Some "Invalid color pair selected")
  else
    r ← call_int (c_init_pair (cshort pair) (cshort fg) (cshort bg));
    if r =? ERR then Return (Some "Failed to init color pair")
    else Return None.

(** ncurses.go:269 *)
Definition MouseMask (mask old : Z) : go Z :=
  r ← call_unsigned mmask_bits
        (c_mousemask (wrap_unsigned mmask_bits mask) old);
  Return (goint r).

(** ncurses.go:342 *)
Definition Update : go error :=
  r ← call_int c_doupdate;
  if r =? ERR then Return (Some "Failed to update") else Return None.

End Cgo.

End Ncurses.

(* ===================================================================== *)
(** ** A model of the native library                                      *)
(* ===================================================================== *)

(** Modelled from the spec: the native library is not part of the
    repository.  The model gives the calls below the meaning the
    specification gives them: window creation inside a parent (4.2), the
    two-phase refresh (4.5) and the mouse mask (4.6).  Drawing and input
    calls are given no meaning here. *)
Module Model.

(** Modelled from the spec: a window is a rectangle with an origin and a
    size; a sub-window has a parent and works on the cell memory of the
    window it was cut from ([store]). *)
Record cwindow : Type := {
  begy : Z; begx : Z;
  rows : Z; cols : Z;
  parent : Z;
  store : Z
}.

(** Modelled from the spec: a screen, and the cell memory of a window,
    are cells addressed by screen position. *)
Definition screen : Type := gmap (Z * Z) Z.

(** Modelled from the spec: the session.  [newscr] is what the marked
    windows want on the terminal, [curscr] what the terminal shows;
    [mouse_events] are the events the terminal can report. *)
Record curses : Type := {
  wins : gmap Z cwindow;
  mem : gmap Z screen;
  newscr : screen;
  curscr : screen;
  mouse_ok : bool;
  mouse_events : Z;
  mouse_mask : Z
}.

Definition with_wins (s : curses) (ws : gmap Z cwindow) (m : gmap Z screen)
  : curses :=
  {| wins := ws; mem := m; newscr := newscr s; curscr := curscr s;
     mouse_ok := mouse_ok s; mouse_events := mouse_events s;
     mouse_mask := mouse_mask s |}.

Definition with_screens (s : curses) (virtual physical : screen) : curses :=
  {| wins := wins s; mem := mem s; newscr := virtual; curscr := physical;
     mouse_ok := mouse_ok s; mouse_events := mouse_events s;
     mouse_mask := mouse_mask s |}.

Definition with_mouse_mask (s : curses) (m : Z) : curses :=
  {| wins := wins s; mem := mem s; newscr := newscr s; curscr := curscr s;
     mouse_ok := mouse_ok s; mouse_events := mouse_events s;
     mouse_mask := m |}.

(** Modelled from the spec: the containment that window creation checks.
    The rectangle of [h] rows and [w] columns at (y, x), relative to the
    origin of [o], lies inside [o]. *)
Definition inside (o : cwindow) (h w y x : Z) : bool :=
  (0 <=? y) && (0 <=? x) && (0 <=? h) && (0 <=? w)
  && (y + h <=? rows o) && (x + w <=? cols o).

(** Modelled from the spec: the same for a rectangle given in absolute
    screen coordinates. *)
Definition contained (o : cwindow) (h w y x : Z) : bool :=
  inside o h w (y - begy o) (x - begx o).

Definition fresh_handle (s : curses) : Z :=
  1 + map_fold (fun k _ m => Z.max k m) 0 (wins s).

(** Modelled from the spec: [derwin] creates a child that shares the
    parent's buffer, at coordinates relative to the parent's origin, and
    fails, with no effect, when the rectangle is not inside the parent. *)
Definition derwin (s : curses) (orig h w y x : Z) : Z * curses :=
  match wins s !! orig with
  | None => (NULL, s)
  | Some o =>
      if inside o h w y x then
        let child :=
          {| begy := begy o + y; begx := begx o + x;
             rows := h; cols := w;
             parent := orig; store := store o |} in
        let p := fresh_handle s in
        (p, with_wins s (<[p := child]> (wins s)) (mem s))
      else (NULL, s)
  end.

(** Modelled from the spec: [subwin] is [derwin] at screen coordinates. *)
Definition subwin (s : curses) (orig h w y x : Z) : Z * curses :=
  match wins s !! orig with
  | None => (NULL, s)
  | Some o => derwin s orig h w (y - begy o) (x - begx o)
  end.

(** Modelled from the spec: [delwin] releases the resources of a window,
    after which its handle is no longer that of a window. *)
Definition delwin (s : curses) (w : Z) : Z * curses :=
  match wins s !! w with
  | None => (ERR, s)
  | Some _ => (OK, with_wins s (delete w (wins s)) (delete w (mem s)))
  end.

Definition in_window (o : cwindow) (p : Z * Z) : bool :=
  (begy o <=? p.1) && (p.1 <? begy o + rows o)
  && (begx o <=? p.2) && (p.2 <? begx o + cols o).

(** Modelled from the spec: the cells of a window are those of the
    buffer it works on that lie in its rectangle. *)
Definition cells (s : curses) (o : cwindow) : screen :=
  filter (fun kv => Is_true (in_window o kv.1)) (default ∅ (mem s !! store o)).

(** Modelled from the spec: [wnoutrefresh] marks a window for redraw by
    copying it to the virtual screen, without touching the terminal. *)
Definition wnoutrefresh (s : curses) (w : Z) : Z * curses :=
  match wins s !! w with
  | None => (ERR, s)
  | Some o => (OK, with_screens s (cells s o ∪ newscr s) (curscr s))
  end.

(** Modelled from the spec: [doupdate] flushes what was marked to the
    terminal in one write. *)
Definition doupdate (s : curses) : Z * curses :=
  (OK, with_screens s (newscr s) (newscr s)).

(** Modelled from the spec: [wrefresh] recomputes the output for one
    window and flushes at once; it is the two phases in a row. *)
Definition wrefresh (s : curses) (w : Z) : Z * curses :=
  match wins s !! w with
  | None => (ERR, s)
  | Some _ => doupdate (wnoutrefresh s w).2
  end.

(** Modelled from the spec: [mousemask] grants the requested events the
    terminal can report, none without a mouse. *)
Definition mousemask (s : curses) (newmask : Z) : Z * curses :=
  let granted := if mouse_ok s then Z.land newmask (mouse_events s) else 0 in
  (granted, with_mouse_mask s granted).

(** Modelled from the spec: the native library as a handler of the
    calls the model covers. *)
Definition exec : handler curses := fun c s =>
  match c with
  | c_subwin orig h w y x => Some (subwin s orig h w y x)
  | c_derwin orig h w y x => Some (derwin s orig h w y x)
  | c_delwin w => Some (delwin s w)
  | c_wnoutrefresh w => Some (wnoutrefresh s w)
  | c_wrefresh w => Some (wrefresh s w)
  | c_doupdate => Some (doupdate s)
  | c_has_mouse => Some (if mouse_ok s then 1 else 0, s)
  | c_mousemask newmask _ => Some (mousemask s newmask)
  | _ => None
  end.


End Model.

(** A small session to run the functions on: a root window with a
    framed box on top of it, some text in both, one change already
    staged on the virtual screen, and a mouse that reports the first
    sixteen events. *)
Module Demo.

Definition root : Model.cwindow :=
  {| Model.begy := 0; Model.begx := 0; Model.rows := 24; Model.cols := 80;
     Model.parent := NULL; Model.store := 1 |}.

Definition box : Model.cwindow :=
  {| Model.begy := 2; Model.begx := 3; Model.rows := 5; Model.cols := 10;
     Model.parent := NULL; Model.store := 2 |}.

Definition session : Model.curses :=
  {| Model.wins := {[ 1 := root; 2 := box ]};
     Model.mem := {[ 1 := {[ (0, 0) := 72; (0, 1) := 105 ]};
                     2 := {[ (2, 3) := 43; (2, 4) := 45 ]} ]};
     Model.newscr := {[ (23, 0) := 58 ]};
     Model.curscr := ∅;
     Model.mouse_ok := true;
     Model.mouse_events := 65535;
     Model.mouse_mask := 0 |}.


(** A Go heap holding one [Window] value, for the box. *)
Definition objects : Goncurses.heap := {[ 4096 := {| Goncurses.win := 2 |} ]}.

End Demo.

(** Native sides to run examples against. *)
Module Script.

(** Every call gets the same answer. *)
Definition always (r : Z) : handler unit := fun _ s => Some (r, s).


End Script.

(** Programs by what can be observed of them. *)
Module Observe.

(** The program that makes the one native call [c] and returns [f] of
    the value that came back. *)
Definition one_call {A : Type} (c : ccall) (f : Z -> A) : go A :=
  Call c (fun r => Return (f r)).

(** Two programs that no native library can tell apart, and that leave
    the same result with the caller. *)
Definition same {A : Type} (p q : go A) : Prop :=
  forall (S : Type) (exec : handler S) (s : S),
    run exec p s = run exec q s /\ calls exec p s = calls exec q s.

End Observe.

(* ===================================================================== *)
(** ** Further native calls, and the functions that need them             *)
(* ===================================================================== *)

(** Programs over a wider set of native calls: those of [Native.ccall]
    and the further entry points below, some of which hand back more
    than a number. *)
Module Wide.

Import Goncurses.

(** The C struct [MEVENT], as [getmouse] fills it in. *)
Record MEVENT : Type := {
  ev_id : Z;
  ev_x : Z; ev_y : Z; ev_z : Z;
  ev_bstate : Z
}.

Inductive xcall : Type :=
| c_initscr
| c_endwin
| c_has_colors
| c_start_color
| c_raw
| c_noraw
| c_echo
| c_noecho
| c_keypad (win : Z) (on : bool)
| c_wbkgd (win ch : Z)
| c_getmouse
| c_wgetnstr (win n : Z).

(** What comes back from a call: the C result and, for [getmouse] and
    [wgetnstr], what the call left behind its pointer argument (the
    event; the text up to the terminating NUL). *)
Definition answer (c : xcall) : Type :=
  match c with
  | c_getmouse => (Z * MEVENT)%type
  | c_wgetnstr _ _ => (Z * string)%type
  | _ => Z
  end.

(** Run-time panics: those of [Native.panic], and [make] with a length
    that is negative or too large. *)
Inductive fault : Type :=
| Go_panic (p : panic)
| MakeSliceLenOutOfRange.

Inductive wide (A : Type) : Type :=
| Ret (a : A)
| Throw (f : fault)
| Base (c : ccall) (k : Z -> wide A)
| Ext (c : xcall) (k : answer c -> wide A).

Arguments Ret {A} a.
Arguments Throw {A} f.
Arguments Base {A} c k.
Arguments Ext {A} c k.

(** A program over [ccall] is a program over the wider set. *)
Fixpoint lift {A : Type} (p : go A) : wide A :=
  match p with
  | Return a => Ret a
  | Panic e => Throw (Go_panic e)
  | Call c k => Base c (fun r => lift (k r))
  end.

Fixpoint wbind {A B : Type} (m : wide A) (f : A -> wide B) : wide B :=
  match m with
  | Ret a => f a
  | Throw e => Throw e
  | Base c k => Base c (fun r => wbind (k r) f)
  | Ext c k => Ext c (fun r => wbind (k r) f)
  end.

#[global] Instance wide_ret : MRet wide := @Ret.
#[global] Instance wide_bind : MBind wide := fun A B f m => wbind m f.

(** [defer d(); body]: [d] runs when [body] returns and when it panics;
    the panic goes on after [d], unless [d] panics itself. *)
Fixpoint defer {A : Type} (d : wide unit) (body : wide A) : wide A :=
  match body with
  | Ret a => wbind d (fun _ => Ret a)
  | Throw e => wbind d (fun _ => Throw e)
  | Base c k => Base c (fun r => defer d (k r))
  | Ext c k => Ext c (fun r => defer d (k r))
  end.

Definition xhandler (S : Type) : Type :=
  forall c : xcall, S -> option (answer c * S).

Inductive anycall : Type :=
| base_call (c : ccall)
| ext_call (c : xcall).

Inductive ending (A : Type) : Type :=
| Finished (a : A)
| Faulted (f : fault).

Arguments Finished {A} a.
Arguments Faulted {A} f.

Fixpoint wrun {S A : Type} (exec : handler S) (xexec : xhandler S)
    (p : wide A) (s : S) : option (ending A * S) :=
  match p with
  | Ret a => Some (Finished a, s)
  | Throw e => Some (Faulted e, s)
  | Base c k =>
      match exec c s with
      | Some (r, s') => wrun exec xexec (k r) s'
      | None => None
      end
  | Ext c k =>
      match xexec c s with
      | Some (r, s') => wrun exec xexec (k r) s'
      | None => None
      end
  end.

Fixpoint wcalls {S A : Type} (exec : handler S) (xexec : xhandler S)
    (p : wide A) (s : S) : list anycall :=
  match p with
  | Ret _ | Throw _ => []
  | Base c k =>
      base_call c :: match exec c s with
                     | Some (r, s') => wcalls exec xexec (k r) s'
                     | None => []
                     end
  | Ext c k =>
      ext_call c :: match xexec c s with
                    | Some (r, s') => wcalls exec xexec (k r) s'
                    | None => []
                    end
  end.

(** A drawing call that writes text or a character. *)
Definition writes (c : anycall) : bool :=
  match c with
  | base_call (c_waddch _ _) | base_call (c_mvwaddch _ _ _ _)
  | base_call (c_waddstr _ _) | base_call (c_mvwaddstr _ _ _ _) => true
  | _ => false
  end.

(** A native side for examples: the same number for every call, with a
    fixed event and a fixed text where one is handed back. *)
Definition xalways (r : Z) (ev : MEVENT) (text : string) : xhandler unit :=
  fun c s =>
    Some (match c return answer c with
          | c_getmouse => (r, ev)
          | c_wgetnstr _ _ => (r, text)
          | _ => r
          end, s).

Section Quiet.

Context {S : Type} (exec : handler S) (xexec : xhandler S).

(** A step that writes nothing and always comes back. *)
Definition harmless {A : Type} (p : wide A) : Prop :=
  forall s : S,
    Forall (fun c => writes c = false) (wcalls exec xexec p s) /\
    forall (o : ending A) (s' : S),
      wrun exec xexec p s = Some (o, s') -> exists a : A, o = Finished a.

(** A program that writes nothing and, if it ends, ends in the panic
    [f]. *)
Definition dies_quietly {A : Type} (f : fault) (p : wide A) : Prop :=
  forall s : S,
    Forall (fun c => writes c = false) (wcalls exec xexec p s) /\
    forall (o : ending A) (s' : S),
      wrun exec xexec p s = Some (o, s') -> o = Faulted f.

End Quiet.

Section Cgo.

(** Widths of [chtype] and [mmask_t]; the C global [COLOR_PAIRS] once
    colours are started; [fmt.Sprintf]; the largest length [make] takes;
    the colour macros of <curses.h>; [Window.MovePrint], which the
    colour example calls and no source at hand defines; and the
    conversion to the [Char] of src/ncurses.go. *)
Variable chtype_bits : Z.
Variable mmask_bits : Z.
Variable COLOR_PAIRS : Z.
Variable Sprintf : string -> list iface -> string.
Variable max_len : Z.
Variables C_BLACK C_BLUE C_CYAN C_WHITE : Z.
Variable MovePrint : Window -> Z -> Z -> string -> wide unit.
Variable Char : Z -> Z.

(** color.go:449, ncurses.go:116 *)
Definition End : wide unit := Ext c_endwin (fun _ => Ret tt).

(** color.go:439, ncurses.go:106 *)
Definition Echo (on : bool) : wide unit :=
  if on then Ext c_echo (fun _ => Ret tt)
  else Ext c_noecho (fun _ => Ret tt).

(** color.go:463, ncurses.go:138.  The slice is [None] for nil. *)
Definition GetMouse : wide (option (list Z) * error) :=
  has ← lift (call_bool c_has_mouse);
  if negb (Bool.eqb has true) then
    Ret (None, Some "Mouse support not enabled")
  else
    Ext c_getmouse (fun r =>
      let event := snd r in
      if negb (cint (fst r) =? OK) then
        Ret (None, Some "Failed to get mouse event")
      else
        Ret (Some [goint (cint (ev_x event)); goint (cint (ev_y event));
                   goint (cint (ev_z event)); goint (cshort (ev_id event));
                   goint (wrap_unsigned mmask_bits (ev_bstate event))],
             None)).

(** color.go:525, ncurses.go:212 *)
Definition Init : wide (Window * error) :=
  Ext c_initscr (fun p =>
    let stdscr := {| win := p |} in
    if win stdscr =? NULL then
      Ret (stdscr, Some "An error occurred initializing ncurses")
    else Ret (stdscr, None)).

(** color.go:593, ncurses.go:300 *)
Definition Raw (on : bool) : wide unit :=
  if on then Ext c_raw (fun _ => Ret tt)
  else Ext c_noraw (fun _ => Ret tt).

(** color.go:612, ncurses.go:319 *)
Definition StartColor : wide error :=
  Ext c_has_colors (fun has =>
    if has =? 0 then Ret (Some "Terminal does not support colors")
    else
      Ext c_start_color (fun r =>
        if cint r =? ERR then Ret (Some "Failed to enable color mode")
        else Ret None)).

(** color.go:709 *)
Definition Background (w : Window) (attr : Z) : wide unit :=
  Ext (c_wbkgd (win w) (wrap_unsigned chtype_bits attr)) (fun _ => Ret tt).

(** color.go:881.  [make] refuses a negative length and one beyond
    [max_len]; taking the address of the first element needs one. *)
Definition GetString (w : Window) (n : Z) : wide (string * error) :=
  if (n <? 0) || (max_len <? n) then Throw MakeSliceLenOutOfRange
  else if n =? 0 then Throw (Go_panic IndexOutOfRange)
  else
    Ext (c_wgetnstr (win w) (cint n)) (fun r =>
      if cint (fst r) =? ERR then
        Ret (EmptyString, Some "Failed to retrieve string from input stream")
      else Ret (snd r, None)).

(** color.go:918 *)
Definition Keypad (w : Window) (keypad : bool) : wide error :=
  Ext (c_keypad (win w) keypad) (fun err =>
    if cint err =? ERR then Ret (Some "Unable to set keypad mode")
    else Ret None).

(** [err.Error()] on an [error]: nil has no method to call. *)
Definition Error (err : error) : wide string :=
  match err with
  | Some text => Ret text
  | None => Throw (Go_panic NilDereference)
  end.

(** color.go:8, the colour example.  It calls [MovePrint], so it is
    built against the package src/ncurses.go belongs to, not the one
    that follows it in color.go: [Init], [End], [StartColor], [Raw] and
    [Echo] read the same in both, and [InitPair] and [ColorPair] are
    those of src/ncurses.go, with [int16] pairs.  The methods of
    [Window] are not in src/ncurses.go; they are taken from the package
    in color.go, the only place they are written down. *)
Definition main : wide unit :=
  r ← Init;
  let stdscr := fst r in
  defer End (
    _ ← StartColor;
    _ ← Raw true;
    _ ← Echo true;
    _ ← lift (Ncurses.InitPair COLOR_PAIRS 1 C_BLUE C_WHITE);
    _ ← lift (Ncurses.InitPair COLOR_PAIRS 2 C_BLACK C_CYAN);
    err ← lift (Ncurses.InitPair COLOR_PAIRS 255 C_BLACK C_CYAN);
    text ← Error err;
    _ ← lift (Print Sprintf stdscr
                [I_string "An intentional error: %s"; I_string text]);
    _ ← Keypad stdscr true;
    _ ← MovePrint stdscr 12 30 "Hello, World!!!";
    _ ← lift (Refresh stdscr);
    _ ← lift (GetChar stdscr []);
    attr ← lift (Ncurses.ColorPair Char 2);
    _ ← Background stdscr attr;
    _ ← lift (ColorOn stdscr x01);
    _ ← MovePrint stdscr 13 30 "Hello, World in Color!!!";
    _ ← lift (ColorOff stdscr x01);
    _ ← lift (Refresh stdscr);
    _ ← lift (GetChar stdscr []);
    Ret tt).

End Cgo.

End Wide.

(** What the examples of the wider programs run against: an event at
    column 7 of row 3 with the first button pressed, the colours of
    <curses.h>, a [Sprintf] that hands back its format, a [MovePrint]
    that does nothing, and a [Char] as wide as [int]. *)
Module Stage.

Definition event : Wide.MEVENT :=
  {| Wide.ev_id := 0; Wide.ev_x := 7; Wide.ev_y := 3; Wide.ev_z := 0;
     Wide.ev_bstate := 2 |}.

Definition Sprintf (format : string) (_ : list Goncurses.iface) : string :=
  format.

Definition MovePrint (_ : Goncurses.Window) (_ _ : Z) (_ : string)
    : Wide.wide unit :=
  Wide.Ret tt.

Definition Char (v : Z) : Z := goint v.

Definition C_BLACK : Z := 0.
Definition C_BLUE : Z := 4.
Definition C_CYAN : Z := 6.
Definition C_WHITE : Z := 7.

End Stage.

(* ===================================================================== *)
(** ** Tactics                                                            *)
(* ===================================================================== *)

(** Evaluates a program on its concrete argument list, keeping the
    conversions of the values that are not known folded, then takes every
    answer the native side can give. *)
Ltac go_eval :=
  lazy -[cint cshort goint wrap_unsigned Z.eqb Z.lor Z.land negb
         Goncurses.win].

Ltac answer :=
  go_eval;
  repeat match goal with
         | |- context [match ?x with Some _ => _ | None => _ end] =>
             destruct x as [[? ?]|]
         | |- context [if ?b then _ else _] => destruct b
         end;
  try reflexivity.

(* ===================================================================== *)
(** ** Conversions                                                        *)
(* ===================================================================== *)

Section Conversions.

Lemma pow2_split (bits : Z) : 0 < bits -> 2 ^ bits = 2 * 2 ^ (bits - 1).
Proof.
  intros Hb. replace bits with (Z.succ (bits - 1)) at 1 by lia.
  rewrite Z.pow_succ_r by lia. reflexivity.
Qed.

Lemma wrap_signed_range (bits v : Z) :
  0 < bits -> - 2 ^ (bits - 1) <= wrap_signed bits v < 2 ^ (bits - 1).
Proof.
  intros Hb. unfold wrap_signed.
  pose proof (pow2_split bits Hb) as Hs.
  assert (0 < 2 ^ (bits - 1)) by (apply Z.pow_pos_nonneg; lia).
  pose proof (Z.mod_pos_bound (v + 2 ^ (bits - 1)) (2 ^ bits)) as Hm.
  lia.
Qed.

Lemma wrap_signed_id (bits v : Z) :
  0 < bits -> - 2 ^ (bits - 1) <= v < 2 ^ (bits - 1) ->
  wrap_signed bits v = v.
Proof.
  intros Hb Hv. unfold wrap_signed.
  pose proof (pow2_split bits Hb) as Hs.
  rewrite Z.mod_small by lia. lia.
Qed.

Lemma cint_range (v : Z) : in_cint (cint v).
Proof. apply (wrap_signed_range 32 v). lia. Qed.

Lemma cint_id (v : Z) : in_cint v -> cint v = v.
Proof. intros H. apply (wrap_signed_id 32 v); [lia | exact H]. Qed.

Lemma cshort_id (v : Z) : in_int16 v -> cshort v = v.
Proof. intros H. apply (wrap_signed_id 16 v); [lia | exact H]. Qed.

Lemma goint_id (v : Z) : in_goint v -> goint v = v.
Proof. intros H. apply (wrap_signed_id 64 v); [lia | exact H]. Qed.

(** A C [int] survives the trip through Go's [int] and back. *)
Lemma goint_cint (v : Z) : goint (cint v) = cint v.
Proof.
  apply goint_id. pose proof (cint_range v) as H.
  unfold in_cint, in_goint in *. lia.
Qed.

Lemma cint_goint_cint (v : Z) : cint (goint (cint v)) = cint v.
Proof. rewrite goint_cint. apply cint_id, cint_range. Qed.

Lemma byte_val_range (b : byte) : 0 <= byte_val b < 256.
Proof.
  unfold byte_val. pose proof (Byte.to_N_bounded b) as H.
  change 256 with (Z.of_N 256). lia.
Qed.


End Conversions.

(* ===================================================================== *)
(** ** The optional leading position of the drawing operations            *)
(* ===================================================================== *)

Section Drawing.

Import Goncurses.

Context {S : Type} (exec : handler S).

(** [AddChar(y, ch)] writes at (y, 0). *)
Lemma AddChar_single_position (bits : Z) (w : Window) (y ch : Z)
    (s : S) (cursor : Z * Z) :
  targets exec (AddChar bits w [y; ch]) s cursor = [(cint y, 0)].
Proof. unfold targets. answer. Qed.

(** [AddChar(y, x, ch)] writes at (y, x). *)
Lemma AddChar_two_positions (bits : Z) (w : Window) (y x ch : Z)
    (s : S) (cursor : Z * Z) :
  targets exec (AddChar bits w [y; x; ch]) s cursor = [(cint y, cint x)].
Proof. unfold targets. answer. Qed.

(** Indexing into a slice that is long enough. *)
Lemma index_head {A : Type} (a : A) (l : list A) : index (a :: l) 0 = Return a.
Proof.
  unfold index. cbn [length].
  replace (0 <? Z.of_nat (Datatypes.S (length l))) with true by (symmetry; apply Z.ltb_lt; lia).
  reflexivity.
Qed.

Lemma index_second {A : Type} (a b : A) (l : list A) :
  index (a :: b :: l) 1 = Return b.
Proof.
  unfold index. cbn [length].
  replace (1 <? Z.of_nat (Datatypes.S (Datatypes.S (length l)))) with true by (symmetry; apply Z.ltb_lt; lia).
  reflexivity.
Qed.

(** [Print(y, format, values...)] writes at (y, 0). *)
Lemma Print_single_position (Sprintf : string -> list iface -> string)
    (w : Window) (y : Z) (format : string) (values : list iface)
    (s : S) (cursor : Z * Z) :
  targets exec (Print Sprintf w (I_int y :: I_string format :: values))
    s cursor = [(cint y, 0)].
Proof.
  destruct values as [|v values]; unfold targets; [answer|].
  unfold Print.
  replace (1 <? len (I_int y :: I_string format :: v :: values)) with true
    by (symmetry; apply Z.ltb_lt; unfold len; cbn [length]; lia).
  replace (2 <? len (I_int y :: I_string format :: v :: values)) with true
    by (symmetry; apply Z.ltb_lt; unfold len; cbn [length]; lia).
  rewrite index_head, index_second.
  cbv beta iota zeta delta [mbind go_bind bind type_is_int assert_int].
  change (0 + 1) with 1. rewrite index_second.
  cbv beta iota delta [bind assert_string].
  change (0 <? 1) with true. cbv iota.
  unfold call_void. cbn [calls omap target].
  destruct (exec _ s) as [[r s']|]; reflexivity.
Qed.

(** C1 (code defect).  Called with one leading position argument [y],
    [DelChar] and [GetChar] do not go to row [y], column 0: each makes
    the cursor-relative native call, so it takes effect at the window's
    current cursor, whatever [y] is.  ([AddChar] and [Print] do go to
    (y, 0): [AddChar_single_position], [Print_single_position].) *)
Theorem DelChar_GetChar_single_position_at_cursor
    (w : Window) (y : Z) (s : S) (cursor : Z * Z) :
  calls exec (DelChar w [y]) s = [c_wdelch (win w)] /\
  targets exec (DelChar w [y]) s cursor = [cursor] /\
  calls exec (GetChar w [y]) s = [c_wgetch (win w)] /\
  targets exec (GetChar w [y]) s cursor = [cursor].
Proof.
  unfold targets. repeat split; answer.
Qed.

(** C2 (code defect).  [DelChar(y, x)] deletes at row [y], column 0: the
    branch that would read [x] is guarded by [len(coord) > 2], which the
    early return has already excluded. *)
Theorem DelChar_two_positions_ignores_x
    (w : Window) (y x : Z) (s : S) (cursor : Z * Z) :
  calls exec (DelChar w [y; x]) s = [c_mvwdelch (win w) (cint y) 0] /\
  targets exec (DelChar w [y; x]) s cursor = [(cint y, 0)].
Proof.
  unfold targets. split; answer.
Qed.

End Drawing.

(** C7 (code defect).  [AddChar] and [Print] abort with a run-time panic
    on argument lists they can receive: no argument at all (index out of
    range), a lone integer given to [Print] (failed type assertion), and
    a format with two integer values and no position, whose first value
    [Print] takes for a column (failed type assertion). *)
Theorem AddChar_Print_panic
    (bits : Z) (Sprintf : string -> list Goncurses.iface -> string)
    (w : Goncurses.Window) (format : string) (a b : Z) :
  Goncurses.AddChar bits w [] = Panic IndexOutOfRange /\
  Goncurses.Print Sprintf w [] = Panic IndexOutOfRange /\
  Goncurses.Print Sprintf w [Goncurses.I_int a] = Panic TypeAssertion /\
  Goncurses.Print Sprintf w
    [Goncurses.I_string format; Goncurses.I_int a; Goncurses.I_int b]
  = Panic TypeAssertion.
Proof. repeat split. Qed.

(* ===================================================================== *)
(** ** Terminal modes and the colour registry                             *)
(* ===================================================================== *)

Section Registry.

Context {S : Type} (exec : handler S).

(** The two sources agree on [HalfDelay] and [Update]. *)
Lemma HalfDelay_Update_same_in_both_sources (delay : Z) :
  Ncurses.HalfDelay delay = Goncurses.HalfDelay delay /\
  Ncurses.Update = Goncurses.Update.
Proof. split; reflexivity. Qed.

(** A program that returns at once makes no native call and leaves the
    native state as it found it. *)
Lemma run_Return {A : Type} (a : A) (s : S) :
  run exec (Return a) s = Some (Returned a, s) /\ calls exec (Return a) s = [].
Proof. split; reflexivity. Qed.

Lemma HalfDelay_skips (delay : Z) :
  delay <= 0 ->
  Ncurses.HalfDelay delay = Return None /\
  Goncurses.HalfDelay delay = Return None.
Proof.
  intros Hd. unfold Ncurses.HalfDelay, Goncurses.HalfDelay.
  replace (0 <? delay) with false by (symmetry; apply Z.ltb_ge; lia).
  split; reflexivity.
Qed.

(** C10.  For every delay <= 0, [HalfDelay] (in both sources) returns nil
    without making any native call: the half-delay mode change is never
    requested and the native state is untouched, so [HalfDelay(0)] does
    not disable or reset the mode. *)
Theorem HalfDelay_nonpositive_is_noop (delay : Z) (s : S) :
  delay <= 0 ->
  run exec (Ncurses.HalfDelay delay) s = Some (Returned None, s) /\
  calls exec (Ncurses.HalfDelay delay) s = [] /\
  run exec (Goncurses.HalfDelay delay) s = Some (Returned None, s) /\
  calls exec (Goncurses.HalfDelay delay) s = [].
Proof.
  intros Hd. destruct (HalfDelay_skips delay Hd) as [-> ->].
  repeat split.
Qed.

Lemma InitPair_int16_rejects (COLOR_PAIRS pair fg bg : Z) :
  0 <= COLOR_PAIRS < 2 ^ 31 -> in_int16 pair ->
  pair = 0 \/ COLOR_PAIRS <= pair ->
  Ncurses.InitPair COLOR_PAIRS pair fg bg
  = Return (Some "Invalid color pair selected").
Proof.
  intros Hcp Hp Hbad. unfold Ncurses.InitPair, in_int16 in *.
  assert (Hc : (pair =? 0)
               || (cshort (cint (cint COLOR_PAIRS - 1)) <? cshort pair) = true).
  { apply orb_true_iff. destruct (Z.eq_dec pair 0) as [->|Hne].
    - left. reflexivity.
    - right. destruct Hbad as [?|Hge]; [contradiction|].
      rewrite (cint_id COLOR_PAIRS) by (unfold in_cint; lia).
      rewrite (cint_id (COLOR_PAIRS - 1)) by (unfold in_cint; lia).
      rewrite (cshort_id pair) by (unfold in_int16; lia).
      rewrite (cshort_id (COLOR_PAIRS - 1)) by (unfold in_int16; lia).
      apply Z.ltb_lt. lia. }
  rewrite Hc. reflexivity.
Qed.

Lemma InitPair_byte_rejects (COLOR_PAIRS : Z) (pair : byte) (fg bg : Z) :
  0 <= COLOR_PAIRS < 2 ^ 31 ->
  byte_val pair = 0 \/ COLOR_PAIRS <= byte_val pair ->
  Goncurses.InitPair COLOR_PAIRS pair fg bg
  = Return (Some "Invalid color pair selected").
Proof.
  intros Hcp Hbad. unfold Goncurses.InitPair.
  pose proof (byte_val_range pair) as Hb.
  assert (Hc : (byte_val pair =? 0)
               || (cint (cint COLOR_PAIRS - 1) <? cint (byte_val pair)) = true).
  { apply orb_true_iff. destruct (Z.eq_dec (byte_val pair) 0) as [->|Hne].
    - left. reflexivity.
    - right. destruct Hbad as [?|Hge]; [contradiction|].
      rewrite (cint_id COLOR_PAIRS) by (unfold in_cint; lia).
      rewrite (cint_id (COLOR_PAIRS - 1)) by (unfold in_cint; lia).
      rewrite (cint_id (byte_val pair)) by (unfold in_cint; lia).
      apply Z.ltb_lt. lia. }
  rewrite Hc. reflexivity.
Qed.

(** C4.  Whatever [fg] and [bg] are, [InitPair] returns the error
    "Invalid color pair selected" when the pair is 0 and when it is at
    least [COLOR_PAIRS], and it returns before the native [init_pair]: no
    native call is made and the native state is untouched.  This holds
    for the [int16] pair of src/ncurses.go ([pair]) and for the [byte]
    pair of the package in color.go ([b]). *)
Theorem InitPair_rejects_without_registering
    (COLOR_PAIRS pair : Z) (b : byte) (fg bg : Z) (s : S) :
  0 <= COLOR_PAIRS < 2 ^ 31 ->
  in_int16 pair ->
  pair = 0 \/ COLOR_PAIRS <= pair ->
  byte_val b = 0 \/ COLOR_PAIRS <= byte_val b ->
  (run exec (Ncurses.InitPair COLOR_PAIRS pair fg bg) s
   = Some (Returned (Some "Invalid color pair selected"), s) /\
   calls exec (Ncurses.InitPair COLOR_PAIRS pair fg bg) s = []) /\
  (run exec (Goncurses.InitPair COLOR_PAIRS b fg bg) s
   = Some (Returned (Some "Invalid color pair selected"), s) /\
   calls exec (Goncurses.InitPair COLOR_PAIRS b fg bg) s = []).
Proof.
  intros Hcp Hp Hbad Hbadb.
  rewrite (InitPair_int16_rejects COLOR_PAIRS pair fg bg Hcp Hp Hbad).
  rewrite (InitPair_byte_rejects COLOR_PAIRS b fg bg Hcp Hbadb).
  split; apply run_Return.
Qed.

End Registry.

(* ===================================================================== *)
(** ** Attributes, window creation and deletion                           *)
(* ===================================================================== *)

Section Windows.

Import Goncurses.

Context {S : Type} (exec : handler S).

(** What [ColorOn] asks of the native library: the attribute value of
    the pair, then [wattron] with exactly that value. *)
Lemma ColorOn_calls (w : Window) (id : byte) (s s1 : S) (a : Z) :
  exec (c_COLOR_PAIR (cint (byte_val id))) s = Some (a, s1) ->
  calls exec (ColorOn w id) s
  = [c_COLOR_PAIR (cint (byte_val id)); c_wattron (win w) (cint a)].
Proof.
  intros Ha. unfold ColorOn, call_int.
  cbv beta iota delta [mbind go_bind bind calls]. rewrite Ha.
  destruct (exec (c_wattron (win w) (cint a)) s1) as [[r s2]|]; [|reflexivity].
  destruct (cint r =? ERR); reflexivity.
Qed.

(** C5.  For every pair id [ColorOn] accepts (a byte), [AttrOn] applied
    to the value of [ColorPair(id)] makes the same native calls with the
    same arguments as [ColorOn(id)] - [wattron] receives the identical
    attribute value - and the two leave the same native state and agree
    on success or failure. *)
Theorem AttrOn_ColorPair_is_ColorOn
    (attrList : Z -> string) (w : Window) (id : byte) (s : S) :
  calls exec (ColorPair (byte_val id) ≫= AttrOn attrList w) s
  = calls exec (ColorOn w id) s /\
  effect (run exec (ColorPair (byte_val id) ≫= AttrOn attrList w) s)
  = effect (run exec (ColorOn w id) s).
Proof.
  unfold ColorPair, AttrOn, ColorOn, call_int.
  cbv beta iota delta [mbind go_bind bind calls run effect].
  destruct (exec (c_COLOR_PAIR (cint (byte_val id))) s) as [[a s1]|];
    [|split; reflexivity].
  rewrite cint_goint_cint.
  destruct (exec (c_wattron (win w) (cint a)) s1) as [[r s2]|];
    [|split; reflexivity].
  destruct (cint r =? ERR); split; reflexivity.
Qed.

(** C9.  [Delete] only releases the native window: [delwin] is its one
    native call, the heap it hands back is the heap it was given, so the
    caller's [Window] keeps every field (its handle included, now
    dangling), and the nil that [w = nil] stores on success goes to the
    callee's own copy of the receiver. *)
Theorem Delete_leaves_the_callers_Window
    (h : heap) (w : Z) (this : Window) (s s' : S) (r : Z) :
  h !! w = Some this ->
  exec (c_delwin (win this)) s = Some (r, s') ->
  exists (e : error) (w' : Z) (h' : heap),
    run exec (Delete h w) s = Some (Returned (e, w', h'), s') /\
    calls exec (Delete h w) s = [c_delwin (win this)] /\
    h' = h /\ h' !! w = Some this /\
    (cint r <> ERR -> e = None /\ w' = NULL) /\
    (cint r = ERR -> e = Some "Failed to delete window" /\ w' = w).
Proof.
  intros Hw Hexec. unfold Delete. rewrite Hw. unfold call_int.
  cbv beta iota delta [mbind go_bind bind calls run]. rewrite Hexec.
  destruct (Z.eqb_spec (cint r) ERR) as [Heq|Hne].
  - exists (Some "Failed to delete window"), w, h.
    repeat split; try assumption; try reflexivity; intros; congruence.
  - exists None, NULL, h.
    repeat split; try assumption; try reflexivity; intros; congruence.
Qed.

(** [Sub] hands on what [subwin] returned, and does nothing else. *)
Lemma Sub_passes_on_subwin (w : Window) (height width y x : Z)
    (s s' : S) (p : Z) :
  exec (c_subwin (win w) (cint height) (cint width) (cint y) (cint x)) s
  = Some (p, s') ->
  run exec (Sub w height width y x) s = Some (Returned {| win := p |}, s') /\
  calls exec (Sub w height width y x) s
  = [c_subwin (win w) (cint height) (cint width) (cint y) (cint x)].
Proof.
  intros Hexec. unfold Sub, call_ptr.
  cbv beta iota delta [mbind go_bind bind calls run]. rewrite Hexec.
  split; reflexivity.
Qed.

(** [NewWindow], for contrast, checks the handle and reports the
    failure. *)
Lemma NewWindow_failure_reports_error (h w y x : Z) (s s' : S) :
  exec (c_newwin (cint h) (cint w) (cint y) (cint x)) s = Some (NULL, s') ->
  exists r : Window * error,
    run exec (NewWindow h w y x) s = Some (Returned r, s') /\
    reports_error (NewWindow_results r) = true.
Proof.
  intros Hexec. unfold NewWindow, call_ptr.
  cbv beta iota zeta delta [mbind go_bind bind run]. rewrite Hexec.
  eexists. split; reflexivity.
Qed.

(** The result list of [Sub] has no place for an error. *)
Lemma Sub_results_no_error (r : Window) : reports_error (Sub_results r) = false.
Proof. reflexivity. Qed.

(** C3 (as amended).  When the native [subwin] refuses the requested
    rectangle - it returns the nil handle and leaves its state alone, as
    it does for a rectangle that is not contained in the parent - [Sub]
    reports no error: its single result is a [Window] whose handle is
    nil.  [subwin] is the only native call made, and the native state,
    the parent window with it, is as it was. *)
Theorem Sub_refused_gives_nil_Window_and_no_error
    (w : Window) (height width y x : Z) (s : S) :
  exec (c_subwin (win w) (cint height) (cint width) (cint y) (cint x)) s
  = Some (NULL, s) ->
  exists r : Window,
    run exec (Sub w height width y x) s = Some (Returned r, s) /\
    win r = NULL /\
    reports_error (Sub_results r) = false /\
    calls exec (Sub w height width y x) s
    = [c_subwin (win w) (cint height) (cint width) (cint y) (cint x)].
Proof.
  intros Hexec.
  destruct (Sub_passes_on_subwin w height width y x s s NULL Hexec)
    as [Hrun Hcalls].
  exists {| win := NULL |}. repeat split; assumption.
Qed.

End Windows.

(* ===================================================================== *)
(** ** The model: sub-windows and the two-phase refresh                    *)
(* ===================================================================== *)

Section ModelFacts.

Import Goncurses.

(** A rectangle that is not contained in the parent is refused, and the
    refusal changes nothing. *)
Lemma subwin_refuses_outside_parent
    (s : Model.curses) (orig : Z) (o : Model.cwindow) (h w y x : Z) :
  Model.wins s !! orig = Some o ->
  Model.contained o h w y x = false ->
  Model.exec (c_subwin orig h w y x) s = Some (NULL, s).
Proof.
  intros Ho Hout. unfold Model.exec, Model.subwin, Model.derwin.
  rewrite Ho. unfold Model.contained in Hout. rewrite Hout. reflexivity.
Qed.

(** On the model, [Sub] with a rectangle that is not contained in its
    parent returns a nil handle and changes nothing. *)
Lemma Sub_outside_parent_on_model
    (s : Model.curses) (w : Window) (o : Model.cwindow)
    (height width y x : Z) :
  Model.wins s !! win w = Some o ->
  Model.contained o (cint height) (cint width) (cint y) (cint x) = false ->
  run Model.exec (Sub w height width y x) s
  = Some (Returned {| win := NULL |}, s).
Proof.
  intros Ho Hout.
  apply (Sub_passes_on_subwin Model.exec w height width y x s s NULL).
  apply (subwin_refuses_outside_parent s (win w) o); assumption.
Qed.

Lemma wnoutrefresh_live (s : Model.curses) (w : Z) (o : Model.cwindow) :
  Model.wins s !! w = Some o ->
  Model.wnoutrefresh s w
  = (OK, Model.with_screens s (Model.cells s o ∪ Model.newscr s)
           (Model.curscr s)).
Proof. intros Ho. unfold Model.wnoutrefresh. rewrite Ho. reflexivity. Qed.

Lemma wrefresh_live (s : Model.curses) (w : Z) (o : Model.cwindow) :
  Model.wins s !! w = Some o ->
  Model.wrefresh s w
  = (OK, Model.with_screens s (Model.cells s o ∪ Model.newscr s)
           (Model.cells s o ∪ Model.newscr s)).
Proof.
  intros Ho. unfold Model.wrefresh. rewrite Ho.
  rewrite (wnoutrefresh_live s w o Ho). reflexivity.
Qed.

(** The two refresh paths as the native library sees them. *)
Lemma refresh_paths_native_calls (a b : Window) (s : Model.curses) :
  calls Model.exec (NoutRefresh a ;; NoutRefresh b ;; Ncurses.Update) s
  = [c_wnoutrefresh (win a); c_wnoutrefresh (win b); c_doupdate] /\
  calls Model.exec (Refresh a ;; Refresh b) s
  = [c_wrefresh (win a); c_wrefresh (win b)].
Proof.
  unfold NoutRefresh, Refresh, Ncurses.Update, call_void, call_int.
  cbv beta iota delta [mbind go_bind bind calls Model.exec].
  destruct (Model.wnoutrefresh s (win a)) as [r1 s1].
  destruct (Model.wnoutrefresh s1 (win b)) as [r2 s2].
  destruct (Model.doupdate s2) as [r3 s3].
  destruct (Model.wrefresh s (win a)) as [r4 s4].
  destruct (Model.wrefresh s4 (win b)) as [r5 s5].
  destruct (cint r3 =? ERR); split; reflexivity.
Qed.

(** C6.  For live windows [a] and [b]: marking [a], marking [b] and one
    global [Update] run to completion, as do [Refresh] on [a] then on
    [b], and the terminal shows the same screen after either: the staged
    content with [a] and then [b] copied over it. *)
Theorem NoutRefresh_Update_same_screen_as_Refresh
    (a b : Window) (oa ob : Model.cwindow) (s : Model.curses) :
  Model.wins s !! win a = Some oa ->
  Model.wins s !! win b = Some ob ->
  exists (e : error) (s1 s2 : Model.curses),
    run Model.exec (NoutRefresh a ;; NoutRefresh b ;; Ncurses.Update) s
    = Some (Returned e, s1) /\
    run Model.exec (Refresh a ;; Refresh b) s = Some (Returned tt, s2) /\
    Model.curscr s1 = Model.curscr s2 /\
    Model.curscr s1
    = Model.cells s ob ∪ (Model.cells s oa ∪ Model.newscr s).
Proof.
  intros Ha Hb.
  unfold NoutRefresh, Refresh, Ncurses.Update, call_void, call_int.
  cbv beta iota delta [mbind go_bind bind run Model.exec].
  rewrite (wnoutrefresh_live s (win a) oa Ha).
  rewrite (wrefresh_live s (win a) oa Ha).
  set (s1 := Model.with_screens s _ (Model.curscr s)).
  set (s2 := Model.with_screens s _ _).
  rewrite (wnoutrefresh_live s1 (win b) ob Hb).
  rewrite (wrefresh_live s2 (win b) ob Hb).
  unfold Model.doupdate. cbv beta iota zeta.
  change (cint OK =? ERR) with false. cbv iota.
  eexists None, _, _. repeat split.
Qed.
End ModelFacts.

(* ===================================================================== *)
(** ** The mouse mask                                                     *)
(* ===================================================================== *)

Section MouseBits.









End MouseBits.

(* ===================================================================== *)
(** ** The theorems at work on the demo session                           *)
(* ===================================================================== *)

(** C3, the claim refuted: a rectangle of 30 by 100 at (0, 0) is not
    contained in the 24 by 80 root window; [Sub] then returns a [Window]
    with a nil handle and leaves the session as it was, and nothing it
    returns is an error. *)
Lemma Sub_outside_parent_reports_no_error :
  Model.contained Demo.root (cint 30) (cint 100) (cint 0) (cint 0) = false /\
  run Model.exec (Goncurses.Sub {| Goncurses.win := 1 |} 30 100 0 0)
    Demo.session
  = Some (Returned {| Goncurses.win := NULL |}, Demo.session) /\
  ~ (exists (r : Goncurses.Window) (s' : Model.curses),
       run Model.exec (Goncurses.Sub {| Goncurses.win := 1 |} 30 100 0 0)
         Demo.session
       = Some (Returned r, s') /\
       Goncurses.reports_error (Goncurses.Sub_results r) = true).
Proof.
  split; [reflexivity|]. split; [reflexivity|].
  intros (r & s' & _ & Herr).
  rewrite Sub_results_no_error in Herr. discriminate Herr.
Qed.

(** C3 at work: the model refuses the same rectangle. *)
Lemma Sub_refused_on_demo :
  Model.exec (c_subwin 1 (cint 30) (cint 100) (cint 0) (cint 0)) Demo.session
  = Some (NULL, Demo.session) /\
  exists r : Goncurses.Window,
    run Model.exec (Goncurses.Sub {| Goncurses.win := 1 |} 30 100 0 0)
      Demo.session
    = Some (Returned r, Demo.session) /\
    Goncurses.win r = NULL /\
    Goncurses.reports_error (Goncurses.Sub_results r) = false /\
    calls Model.exec (Goncurses.Sub {| Goncurses.win := 1 |} 30 100 0 0)
      Demo.session
    = [c_subwin 1 (cint 30) (cint 100) (cint 0) (cint 0)].
Proof.
  assert (H : Model.exec (c_subwin 1 (cint 30) (cint 100) (cint 0) (cint 0))
                Demo.session = Some (NULL, Demo.session)) by reflexivity.
  split; [assumption|].
  exact (Sub_refused_gives_nil_Window_and_no_error Model.exec
           {| Goncurses.win := 1 |} 30 100 0 0 Demo.session H).
Defined.

(** C4 at work: the call of the colour example, [InitPair(255, C_BLACK,
    C_CYAN)], on a terminal with 64 pairs. *)
Lemma InitPair_255_of_64_rejected :
  0 <= 64 < 2 ^ 31 /\ in_int16 255 /\
  (255 = 0 \/ 64 <= 255) /\
  (byte_val xff = 0 \/ 64 <= byte_val xff) /\
  (run Model.exec (Ncurses.InitPair 64 255 0 6) Demo.session
   = Some (Returned (Some "Invalid color pair selected"), Demo.session) /\
   calls Model.exec (Ncurses.InitPair 64 255 0 6) Demo.session = []) /\
  (run Model.exec (Goncurses.InitPair 64 xff 0 6) Demo.session
   = Some (Returned (Some "Invalid color pair selected"), Demo.session) /\
   calls Model.exec (Goncurses.InitPair 64 xff 0 6) Demo.session = []).
Proof.
  assert (H1 : 0 <= 64 < 2 ^ 31) by lia.
  assert (H2 : in_int16 255) by (unfold in_int16; lia).
  assert (H3 : 255 = 0 \/ 64 <= 255) by (right; lia).
  assert (H4 : byte_val xff = 0 \/ 64 <= byte_val xff)
    by (right; vm_compute; discriminate).
  repeat (split; [assumption|]).
  exact (InitPair_rejects_without_registering Model.exec 64 255 xff 0 6
           Demo.session H1 H2 H3 H4).
Defined.

(** C6 at work: the root window and the box of the demo session. *)
Lemma refresh_root_and_box_either_way :
  Model.wins Demo.session !! 1 = Some Demo.root /\
  Model.wins Demo.session !! 2 = Some Demo.box /\
  exists (e : error) (s1 s2 : Model.curses),
    run Model.exec
      (Goncurses.NoutRefresh {| Goncurses.win := 1 |} ;;
       Goncurses.NoutRefresh {| Goncurses.win := 2 |} ;;
       Ncurses.Update) Demo.session
    = Some (Returned e, s1) /\
    run Model.exec
      (Goncurses.Refresh {| Goncurses.win := 1 |} ;;
       Goncurses.Refresh {| Goncurses.win := 2 |}) Demo.session
    = Some (Returned tt, s2) /\
    Model.curscr s1 = Model.curscr s2 /\
    Model.curscr s1
    = Model.cells Demo.session Demo.box
      ∪ (Model.cells Demo.session Demo.root ∪ Model.newscr Demo.session).
Proof.
  assert (H1 : Model.wins Demo.session !! 1 = Some Demo.root) by reflexivity.
  assert (H2 : Model.wins Demo.session !! 2 = Some Demo.box) by reflexivity.
  repeat (split; [assumption|]).
  exact (NoutRefresh_Update_same_screen_as_Refresh
           {| Goncurses.win := 1 |} {| Goncurses.win := 2 |}
           Demo.root Demo.box Demo.session H1 H2).
Defined.



(** C9 at work: deleting the box through the pointer at 4096. *)
Lemma Delete_box_on_demo :
  Demo.objects !! 4096 = Some {| Goncurses.win := 2 |} /\
  Model.exec (c_delwin 2) Demo.session
  = Some (OK, (Model.delwin Demo.session 2).2) /\
  exists (e : error) (w' : Z) (h' : Goncurses.heap),
    run Model.exec (Goncurses.Delete Demo.objects 4096) Demo.session
    = Some (Returned (e, w', h'), (Model.delwin Demo.session 2).2) /\
    calls Model.exec (Goncurses.Delete Demo.objects 4096) Demo.session
    = [c_delwin 2] /\
    h' = Demo.objects /\
    h' !! 4096 = Some {| Goncurses.win := 2 |} /\
    (cint OK <> ERR -> e = None /\ w' = NULL) /\
    (cint OK = ERR -> e = Some "Failed to delete window" /\ w' = 4096).
Proof.
  assert (H1 : Demo.objects !! 4096 = Some {| Goncurses.win := 2 |})
    by reflexivity.
  assert (H2 : Model.exec (c_delwin 2) Demo.session
               = Some (OK, (Model.delwin Demo.session 2).2))
    by reflexivity.
  repeat (split; [assumption|]).
  exact (Delete_leaves_the_callers_Window Model.exec Demo.objects 4096
           {| Goncurses.win := 2 |} Demo.session
           (Model.delwin Demo.session 2).2 OK H1 H2).
Defined.

(** C10 at work: [HalfDelay(0)]. *)
Lemma HalfDelay_0_on_demo :
  0 <= 0 /\
  run Model.exec (Ncurses.HalfDelay 0) Demo.session
  = Some (Returned None, Demo.session) /\
  calls Model.exec (Ncurses.HalfDelay 0) Demo.session = [] /\
  run Model.exec (Goncurses.HalfDelay 0) Demo.session
  = Some (Returned None, Demo.session) /\
  calls Model.exec (Goncurses.HalfDelay 0) Demo.session = [].
Proof.
  assert (H : 0 <= 0) by lia.
  split; [assumption|].
  exact (HalfDelay_nonpositive_is_noop Model.exec 0 Demo.session H).
Defined.

(** The defects of C1, C2 and C7 on concrete calls: the box of the demo
    session, its cursor at (2, 3). *)
Example AddChar_5_A_writes_at_5_0 :
  targets Model.exec (Goncurses.AddChar 32 {| Goncurses.win := 2 |} [5; 65])
    Demo.session (2, 3) = [(5, 0)].
Proof. reflexivity. Qed.

Example DelChar_5_deletes_at_the_cursor :
  targets Model.exec (Goncurses.DelChar {| Goncurses.win := 2 |} [5])
    Demo.session (2, 3) = [(2, 3)].
Proof. reflexivity. Qed.

Example GetChar_5_reads_at_the_cursor :
  targets Model.exec (Goncurses.GetChar {| Goncurses.win := 2 |} [5])
    Demo.session (2, 3) = [(2, 3)].
Proof. reflexivity. Qed.

Example DelChar_3_7_deletes_at_3_0 :
  targets Model.exec (Goncurses.DelChar {| Goncurses.win := 2 |} [3; 7])
    Demo.session (2, 3) = [(3, 0)].
Proof. reflexivity. Qed.

Example Print_rows_and_columns_panics :
  run Model.exec
    (Goncurses.Print (fun format _ => format) {| Goncurses.win := 2 |}
       [Goncurses.I_string "%d rows and %d columns";
        Goncurses.I_int 24; Goncurses.I_int 80])
    Demo.session
  = Some (Panicked TypeAssertion, Demo.session).
Proof. reflexivity. Qed.

(* ===================================================================== *)
(** ** The variadic operations, argument list by argument list           *)
(* ===================================================================== *)

(** Takes a [same] goal apart: both programs are unfolded to their
    native calls and every answer is considered. *)
Ltac observe :=
  intros ? ? ?;
  cbv beta iota zeta delta
    [mbind go_bind bind run calls Observe.one_call call_int call_void call_ptr
     call_bool call_unsigned];
  repeat match goal with
         | |- context [match ?e ?c ?s with Some _ => _ | None => _ end] =>
             destruct (e c s) as [[? ?]|]
         end;
  repeat match goal with
         | |- context [?a =? ?b] => destruct (a =? b)
         end;
  cbv beta iota delta [negb];
  repeat match goal with
         | |- context [if ?b then _ else _] => destruct b
         end;
  rewrite ?goint_cint;
  split; reflexivity.

Section Arity.

Import Goncurses Observe.

Lemma len_at_least_2 {A : Type} (a b : A) (l : list A) :
  (1 <? len (a :: b :: l)) = true.
Proof. apply Z.ltb_lt. unfold len. cbn [length]. lia. Qed.

Lemma len_at_least_3 {A : Type} (a b c : A) (l : list A) :
  (2 <? len (a :: b :: c :: l)) = true.
Proof. apply Z.ltb_lt. unfold len. cbn [length]. lia. Qed.

Lemma index_third {A : Type} (a b c : A) (l : list A) :
  index (a :: b :: c :: l) 2 = Return c.
Proof.
  unfold index. cbn [length].
  replace (2 <? Z.of_nat (Datatypes.S (Datatypes.S (Datatypes.S (length l)))))
    with true by (symmetry; apply Z.ltb_lt; lia).
  reflexivity.
Qed.

(** X1.  How [AddChar] reads its argument list: none is a panic; one is
    the character, written at the cursor; two are a row and the
    character, written at column 0 of the row; with three or more the
    first three are row, column and character, and whatever follows is
    ignored.  A non-empty list never panics and makes one native call. *)
Theorem AddChar_by_arity (bits : Z) (w : Window) (args : list Z) :
  AddChar bits w args =
  match args with
  | [] => Panic IndexOutOfRange
  | [ch] => call_void (c_waddch (win w) (wrap_unsigned bits (cint ch)))
  | [y; ch] =>
      call_void (c_mvwaddch (win w) (cint y) 0 (wrap_unsigned bits (cint ch)))
  | y :: x :: ch :: _ =>
      call_void
        (c_mvwaddch (win w) (cint y) (cint x) (wrap_unsigned bits (cint ch)))
  end.
Proof.
  destruct args as [|a [|b [|c rest]]]; try reflexivity.
  unfold AddChar.
  rewrite len_at_least_2, len_at_least_3, index_head, index_second.
  cbv beta iota zeta delta [mbind go_bind bind].
  change (0 + 1 + 1) with 2. rewrite index_third.
  reflexivity.
Qed.

Lemma GetChar_program (w : Window) (coords : list Z) :
  GetChar w coords =
  call_int (match coords with
            | [] | [_] => c_wgetch (win w)
            | [y; _] => c_mvwgetch (win w) (cint y) 0
            | y :: x :: _ :: _ => c_mvwgetch (win w) (cint y) (cint x)
            end) ≫= (fun r => Return (goint r)).
Proof.
  destruct coords as [|a [|b [|c rest]]]; try reflexivity.
  unfold GetChar.
  rewrite len_at_least_2, len_at_least_3, index_head, index_second.
  reflexivity.
Qed.

(** X2.  How [GetChar] reads its coordinates: it never panics and makes
    one native call; with no coordinate or one it reads at the cursor,
    with two it reads at column 0 of the first (the second is not
    used), with three or more at the first two.  The value returned is
    the C int that came back. *)
Theorem GetChar_by_arity (w : Window) (coords : list Z) :
  same (GetChar w coords)
    (one_call
       (match coords with
        | [] | [_] => c_wgetch (win w)
        | [y; _] => c_mvwgetch (win w) (cint y) 0
        | y :: x :: _ :: _ => c_mvwgetch (win w) (cint y) (cint x)
        end) cint).
Proof. rewrite GetChar_program. observe. Qed.

Lemma DelChar_program (w : Window) (coord : list Z) :
  DelChar w coord =
  match coord with
  | _ :: _ :: _ :: _ =>
      Return (Some ("Invalid number of arguments, expected 2, got "
                    +:+ pretty (len coord)))
  | _ =>
      call_int (match coord with
                | y :: _ :: _ => c_mvwdelch (win w) (cint y) 0
                | _ => c_wdelch (win w)
                end)
      ≫= (fun err =>
            if negb (err =? OK) then
              Return (Some "An error occurred when trying to delete character")
            else Return None)
  end.
Proof.
  destruct coord as [|a [|b [|c rest]]]; try reflexivity.
  unfold DelChar. rewrite len_at_least_3. reflexivity.
Qed.

(** X3.  [DelChar] never panics.  Given more than two coordinates it
    makes no native call and returns an error that names their number;
    otherwise it makes one native call and returns nil exactly when the
    call answered [OK]: any other answer, not only [ERR], is reported as
    an error. *)
Theorem DelChar_calls_and_errors (w : Window) (coord : list Z) :
  (2 < len coord ->
   DelChar w coord
   = Return (Some ("Invalid number of arguments, expected 2, got "
                   +:+ pretty (len coord)))) /\
  (len coord <= 2 ->
   same (DelChar w coord)
     (one_call
        (match coord with
         | y :: _ :: _ => c_mvwdelch (win w) (cint y) 0
         | _ => c_wdelch (win w)
         end)
        (fun r => if cint r =? OK then None
                  else Some "An error occurred when trying to delete character"))).
Proof.
  rewrite DelChar_program. split.
  - destruct coord as [|a [|b [|c rest]]]; unfold len; cbn [length];
      intros Hlen; try lia. reflexivity.
  - destruct coord as [|a [|b [|c rest]]]; unfold len; cbn [length];
      intros Hlen; try lia; observe.
Qed.

Lemma Print_positioned_program
    (Sprintf : string -> list iface -> string) (w : Window)
    (y x : Z) (format : string) (values : list iface) :
  Print Sprintf w (I_int y :: I_int x :: I_string format :: values)
  = call_void (c_mvwaddstr (win w) (cint y) (cint x) (Sprintf format values)).
Proof.
  unfold Print.
  rewrite len_at_least_2, len_at_least_3, index_head, index_second.
  cbv beta iota zeta delta [mbind go_bind bind type_is_int assert_int].
  change (0 + 1 + 1) with 2. rewrite index_third.
  reflexivity.
Qed.

Lemma Print_row_program
    (Sprintf : string -> list iface -> string) (w : Window)
    (y : Z) (format : string) (values : list iface) :
  Print Sprintf w (I_int y :: I_string format :: values)
  = call_void (c_mvwaddstr (win w) (cint y) 0 (Sprintf format values)).
Proof.
  destruct values as [|v values]; [reflexivity|].
  unfold Print.
  rewrite len_at_least_2, len_at_least_3, index_head, index_second.
  cbv beta iota zeta delta [mbind go_bind bind type_is_int assert_int].
  change (0 + 1) with 1. rewrite index_second.
  reflexivity.
Qed.

(** X4.  [Print] with a position: [Print(y, x, format, values...)] makes
    the one call that writes the formatted string at (y, x), and
    [Print(y, format, values...)] the one that writes it at (y, 0); in
    both the values after the format, all of them and in order, are what
    [Sprintf] receives. *)
Theorem Print_with_position
    (Sprintf : string -> list iface -> string) (w : Window)
    (y x : Z) (format : string) (values : list iface) :
  Print Sprintf w (I_int y :: I_int x :: I_string format :: values)
  = call_void (c_mvwaddstr (win w) (cint y) (cint x) (Sprintf format values))
  /\
  Print Sprintf w (I_int y :: I_string format :: values)
  = call_void (c_mvwaddstr (win w) (cint y) 0 (Sprintf format values)).
Proof.
  split; [apply Print_positioned_program | apply Print_row_program].
Qed.

(** X5.  [Print] without a position, [Print(format, values...)]: with no
    value or one value it writes the formatted string at the cursor,
    whatever the value is.  With two values or more the first value
    decides: an int is taken for a column and the call panics on the
    type assertion that follows, a nil interface panics in the type
    test, and any other value lets the string be written at the cursor
    with all the values. *)
Theorem Print_without_position
    (Sprintf : string -> list iface -> string) (w : Window)
    (format : string) (values : list iface) :
  Print Sprintf w (I_string format :: values) =
  match values with
  | I_int _ :: _ :: _ => Panic TypeAssertion
  | I_nil :: _ :: _ => Panic NilDereference
  | _ => call_void (c_waddstr (win w) (Sprintf format values))
  end.
Proof.
  destruct values as [|v1 [|v2 rest]];
    [reflexivity | destruct v1; reflexivity |].
  unfold Print.
  rewrite len_at_least_2, len_at_least_3, index_head, index_second.
  destruct v1;
    cbv beta iota zeta delta [mbind go_bind bind type_is_int assert_int];
    change (0 + 1) with 1; rewrite ?index_head, ?index_second;
    reflexivity.
Qed.

End Arity.

(* ===================================================================== *)
(** ** Registration, modes and constructors: the paths that go through   *)
(* ===================================================================== *)

Section Through.

Import Goncurses Observe.

(** X6.  src/ncurses.go: with [COLOR_PAIRS] up to 32768, [InitPair]
    registers every pair other than 0 that is below [COLOR_PAIRS] - the
    negative ones too, which the range check does not stop: it makes the
    one call [init_pair(pair, fg, bg)] and returns nil unless the call
    answered [ERR]. *)
Theorem InitPair_int16_registers_below_COLOR_PAIRS
    (COLOR_PAIRS pair fg bg : Z) :
  0 <= COLOR_PAIRS <= 2 ^ 15 -> in_int16 pair ->
  pair <> 0 -> pair < COLOR_PAIRS ->
  same (Ncurses.InitPair COLOR_PAIRS pair fg bg)
    (one_call (c_init_pair pair (cshort fg) (cshort bg))
       (fun r => if cint r =? ERR then Some "Failed to init color pair"
                 else None)).
Proof.
  intros Hcp Hp Hne Hlt. unfold Ncurses.InitPair, in_int16 in *.
  assert (Hc : (pair =? 0)
               || (cshort (cint (cint COLOR_PAIRS - 1)) <? cshort pair) = false).
  { apply orb_false_iff. split.
    - apply Z.eqb_neq, Hne.
    - rewrite (cint_id COLOR_PAIRS) by (unfold in_cint; lia).
      rewrite (cint_id (COLOR_PAIRS - 1)) by (unfold in_cint; lia).
      rewrite (cshort_id pair) by (unfold in_int16; lia).
      rewrite (cshort_id (COLOR_PAIRS - 1)) by (unfold in_int16; lia).
      apply Z.ltb_ge. lia. }
  rewrite Hc, (cshort_id pair) by (unfold in_int16; lia).
  observe.
Qed.

(** X7.  The package of color.go: [InitPair] registers every byte pair
    other than 0 that is below [COLOR_PAIRS], with the one call
    [init_pair(pair, fg, bg)], and returns nil unless the call answered
    [ERR]; pairs above 255 cannot be named at all. *)
Theorem InitPair_byte_registers_below_COLOR_PAIRS
    (COLOR_PAIRS : Z) (pair : byte) (fg bg : Z) :
  0 <= COLOR_PAIRS < 2 ^ 31 ->
  byte_val pair <> 0 -> byte_val pair < COLOR_PAIRS ->
  same (Goncurses.InitPair COLOR_PAIRS pair fg bg)
    (one_call (c_init_pair (byte_val pair) (cshort fg) (cshort bg))
       (fun r => if cint r =? ERR then Some "Failed to init color pair"
                 else None)).
Proof.
  intros Hcp Hne Hlt. unfold Goncurses.InitPair.
  pose proof (byte_val_range pair) as Hb.
  assert (Hc : (byte_val pair =? 0)
               || (cint (cint COLOR_PAIRS - 1) <? cint (byte_val pair)) = false).
  { apply orb_false_iff. split.
    - apply Z.eqb_neq, Hne.
    - rewrite (cint_id COLOR_PAIRS) by (unfold in_cint; lia).
      rewrite (cint_id (COLOR_PAIRS - 1)) by (unfold in_cint; lia).
      rewrite (cint_id (byte_val pair)) by (unfold in_cint; lia).
      apply Z.ltb_ge. lia. }
  rewrite Hc, (cshort_id (byte_val pair)) by (unfold in_int16; lia).
  observe.
Qed.

(** X8.  src/ncurses.go: the bound is compared as a C short.  When the
    terminal reports more than 32768 and at most 65536 pairs,
    [COLOR_PAIRS - 1] does not fit and turns negative, and [InitPair]
    rejects every pair from 0 up, the valid ones included, without
    registering anything. *)
Theorem InitPair_int16_bound_wraps (COLOR_PAIRS pair fg bg : Z) :
  2 ^ 15 < COLOR_PAIRS <= 2 ^ 16 -> 0 <= pair < 2 ^ 15 ->
  Ncurses.InitPair COLOR_PAIRS pair fg bg
  = Return (Some "Invalid color pair selected").
Proof.
  intros Hcp Hp. unfold Ncurses.InitPair.
  assert (Hc : (pair =? 0)
               || (cshort (cint (cint COLOR_PAIRS - 1)) <? cshort pair) = true).
  { apply orb_true_iff. right.
    rewrite (cint_id COLOR_PAIRS) by (unfold in_cint; lia).
    rewrite (cint_id (COLOR_PAIRS - 1)) by (unfold in_cint; lia).
    rewrite (cshort_id pair) by (unfold in_int16; lia).
    pose proof (wrap_signed_range 16 (COLOR_PAIRS - 1) ltac:(lia)) as Hr.
    assert (Hw : cshort (COLOR_PAIRS - 1) = COLOR_PAIRS - 1 - 2 ^ 16).
    { unfold cshort, wrap_signed. change (16 - 1) with 15.
      replace (COLOR_PAIRS - 1 + 2 ^ 15)
        with (COLOR_PAIRS - 1 - 2 ^ 15 + 1 * 2 ^ 16) by lia.
      rewrite Z.mod_add by lia. rewrite Z.mod_small by lia. lia. }
    rewrite Hw. apply Z.ltb_lt. lia. }
  rewrite Hc. reflexivity.
Qed.

Context {S : Type} (exec : handler S).

(** X9.  [ColorOff] is [AttrOff] of [ColorPair]: for every byte id the
    two make the same native calls with the same arguments - [wattroff]
    receives the identical attribute value - leave the same native state
    and agree on success or failure. *)
Theorem AttrOff_ColorPair_is_ColorOff
    (attrList : Z -> string) (w : Window) (id : byte) (s : S) :
  calls exec (ColorPair (byte_val id) ≫= AttrOff attrList w) s
  = calls exec (ColorOff w id) s /\
  effect (run exec (ColorPair (byte_val id) ≫= AttrOff attrList w) s)
  = effect (run exec (ColorOff w id) s).
Proof.
  unfold ColorPair, AttrOff, ColorOff, call_int.
  cbv beta iota delta [mbind go_bind bind calls run effect].
  destruct (exec (c_COLOR_PAIR (cint (byte_val id))) s) as [[a s1]|];
    [|split; reflexivity].
  rewrite cint_goint_cint.
  destruct (exec (c_wattroff (win w) (cint a)) s1) as [[r s2]|];
    [|split; reflexivity].
  destruct (cint r =? ERR); split; reflexivity.
Qed.

(** X10.  The package of color.go asks [has_mouse] first: when the
    answer is no, [MouseMask] returns 0 and [mousemask] is never called,
    so the mask the terminal monitors is left alone.  (src/ncurses.go
    has no such test: there [mousemask] is always the first call.) *)
Theorem MouseMask_without_mouse_leaves_mask_alone
    (bits mask old : Z) (s s1 : S) :
  exec c_has_mouse s = Some (0, s1) ->
  run exec (Goncurses.MouseMask bits mask old) s = Some (Returned 0, s1) /\
  calls exec (Goncurses.MouseMask bits mask old) s = [c_has_mouse] /\
  calls exec (Ncurses.MouseMask bits mask old) s
  = [c_mousemask (wrap_unsigned bits mask) old].
Proof.
  intros Hno.
  unfold Goncurses.MouseMask, Ncurses.MouseMask, call_bool, call_unsigned.
  cbv beta iota zeta delta [mbind go_bind bind calls run].
  rewrite Hno. change (negb (0 =? 0)) with false. cbv iota.
  repeat split.
  destruct (exec (c_mousemask (wrap_unsigned bits mask) old) s) as [[r s2]|];
    reflexivity.
Qed.

End Through.

(* ===================================================================== *)
(** ** Capabilities, input, and the colour example                        *)
(* ===================================================================== *)

Section Capabilities.

Import Goncurses Wide.

Context {S : Type} (exec : handler S) (xexec : xhandler S).

(** X11.  On a terminal without colours [StartColor] returns "Terminal
    does not support colors" after asking [has_colors], and never calls
    [start_color]. *)
Theorem StartColor_without_colors (s s1 : S) :
  xexec c_has_colors s = Some (0, s1) ->
  wrun exec xexec StartColor s
  = Some (Finished (Some "Terminal does not support colors"), s1) /\
  wcalls exec xexec StartColor s = [ext_call c_has_colors].
Proof.
  intros Hno. unfold StartColor. cbn [wrun wcalls]. rewrite Hno.
  split; reflexivity.
Qed.

(** X12.  Without a mouse [GetMouse] returns a nil slice and the error
    "Mouse support not enabled", and never calls [getmouse]. *)
Theorem GetMouse_without_mouse (bits : Z) (s s1 : S) :
  exec c_has_mouse s = Some (0, s1) ->
  wrun exec xexec (GetMouse bits) s
  = Some (Finished (None, Some "Mouse support not enabled"), s1) /\
  wcalls exec xexec (GetMouse bits) s = [base_call c_has_mouse].
Proof.
  intros Hno. unfold GetMouse, call_bool.
  cbv beta iota zeta delta [mbind wide_bind wbind lift wrun wcalls].
  rewrite Hno. split; reflexivity.
Qed.

(** X13.  [GetMouse] never panics, and whenever it returns, exactly one
    of its two results is nil: either the slice is nil and the error is
    not, or the error is nil and the slice holds five integers, x, y, z,
    the device id and the button state, read off the event that
    [getmouse] filled in. *)
Theorem GetMouse_slice_or_error
    (bits : Z) (s s' : S) (o : ending (option (list Z) * error)) :
  wrun exec xexec (GetMouse bits) s = Some (o, s') ->
  exists (l : option (list Z)) (e : error),
    o = Finished (l, e) /\
    ((l = None /\ e <> None) \/
     (e = None /\
      exists (status : Z) (ev : MEVENT) (s1 : S),
        xexec c_getmouse s1 = Some ((status, ev), s') /\
        cint status = OK /\
        l = Some [goint (cint (ev_x ev)); goint (cint (ev_y ev));
                  goint (cint (ev_z ev)); goint (cshort (ev_id ev));
                  goint (wrap_unsigned bits (ev_bstate ev))])).
Proof.
  unfold GetMouse, call_bool.
  cbv beta iota zeta delta [mbind wide_bind wbind lift wrun].
  destruct (exec c_has_mouse s) as [[h s1]|]; [|discriminate].
  destruct (negb (Bool.eqb (negb (h =? 0)) true)).
  - intros [= <- <-]. eexists _, _. split; [reflexivity|].
    left. split; [reflexivity | discriminate].
  - destruct (xexec c_getmouse s1) as [[[status ev] s2]|] eqn:Hget;
      [|discriminate].
    cbn [fst snd].
    destruct (Z.eqb_spec (cint status) OK) as [Hok|Hbad]; cbn [negb].
    + intros [= <- <-]. eexists _, _. split; [reflexivity|].
      right. split; [reflexivity|].
      exists status, ev, s1. repeat split; assumption.
    + intros [= <- <-]. eexists _, _. split; [reflexivity|].
      left. split; [reflexivity | discriminate].
Qed.

(** X14.  [GetString] needs a positive length: with n = 0 the buffer has
    no first element to point at, with n < 0 it cannot be made; either
    way the call panics before the native library is asked for
    anything. *)
Theorem GetString_needs_positive_length
    (max_len : Z) (w : Window) (n : Z) (s : S) :
  0 <= max_len -> n <= 0 ->
  wrun exec xexec (GetString max_len w n) s
  = Some (Faulted (if n <? 0 then MakeSliceLenOutOfRange
                   else Go_panic IndexOutOfRange), s) /\
  wcalls exec xexec (GetString max_len w n) s = [].
Proof.
  intros Hmax Hn. unfold GetString.
  destruct (Z.ltb_spec n 0) as [Hneg|Hzero].
  - split; reflexivity.
  - assert (n = 0) as -> by lia.
    replace (max_len <? 0) with false by (symmetry; apply Z.ltb_ge; lia).
    split; reflexivity.
Qed.

End Capabilities.

Section Sequencing.

Import Goncurses Wide.

Context {S : Type} (exec : handler S) (xexec : xhandler S).

Lemma wrun_wbind {A B : Type} (p : wide A) (f : A -> wide B) (s : S) :
  wrun exec xexec (wbind p f) s
  = match wrun exec xexec p s with
    | Some (Finished a, s') => wrun exec xexec (f a) s'
    | Some (Faulted e, s') => Some (Faulted e, s')
    | None => None
    end.
Proof.
  revert s. induction p as [a|e|c k IH|c k IH]; intros s; cbn [wbind wrun].
  - reflexivity.
  - reflexivity.
  - destruct (exec c s) as [[r s']|]; [apply IH | reflexivity].
  - destruct (xexec c s) as [[r s']|]; [apply IH | reflexivity].
Qed.

Lemma wcalls_wbind {A B : Type} (p : wide A) (f : A -> wide B) (s : S) :
  wcalls exec xexec (wbind p f) s
  = wcalls exec xexec p s
    ++ match wrun exec xexec p s with
       | Some (Finished a, s') => wcalls exec xexec (f a) s'
       | _ => []
       end.
Proof.
  revert s. induction p as [a|e|c k IH|c k IH]; intros s;
    cbn [wbind wrun wcalls app].
  - reflexivity.
  - reflexivity.
  - destruct (exec c s) as [[r s']|]; [rewrite IH|]; reflexivity.
  - destruct (xexec c s) as [[r s']|]; [rewrite IH|]; reflexivity.
Qed.

Lemma wrun_defer {A : Type} (d : wide unit) (body : wide A) (s : S) :
  wrun exec xexec (defer d body) s
  = match wrun exec xexec body s with
    | Some (Finished a, s') =>
        wrun exec xexec (wbind d (fun _ => Ret a)) s'
    | Some (Faulted e, s') =>
        wrun exec xexec (wbind d (fun _ => Throw e)) s'
    | None => None
    end.
Proof.
  revert s. induction body as [a|e|c k IH|c k IH]; intros s;
    cbn [defer wrun].
  - reflexivity.
  - reflexivity.
  - destruct (exec c s) as [[r s']|]; [apply IH | reflexivity].
  - destruct (xexec c s) as [[r s']|]; [apply IH | reflexivity].
Qed.

Lemma wcalls_defer {A : Type} (d : wide unit) (body : wide A) (s : S) :
  wcalls exec xexec (defer d body) s
  = wcalls exec xexec body s
    ++ match wrun exec xexec body s with
       | Some (_, s') => wcalls exec xexec d s'
       | None => []
       end.
Proof.
  revert s. induction body as [a|e|c k IH|c k IH]; intros s;
    cbn [defer wrun wcalls app].
  - rewrite wcalls_wbind.
    destruct (wrun exec xexec d s) as [[[[]|f] s']|];
      cbn [wcalls]; rewrite ?app_nil_r; reflexivity.
  - rewrite wcalls_wbind.
    destruct (wrun exec xexec d s) as [[[[]|f] s']|];
      cbn [wcalls]; rewrite ?app_nil_r; reflexivity.
  - destruct (exec c s) as [[r s']|]; [rewrite IH|]; reflexivity.
  - destruct (xexec c s) as [[r s']|]; [rewrite IH|]; reflexivity.
Qed.

End Sequencing.

Section ColourExample.

Import Goncurses Wide.

Context {S : Type} (exec : handler S) (xexec : xhandler S).

Variable chtype_bits : Z.
Variable COLOR_PAIRS : Z.
Variable Sprintf : string -> list iface -> string.
Variables C_BLACK C_BLUE C_CYAN C_WHITE : Z.
Variable MovePrint : Window -> Z -> Z -> string -> wide unit.
Variable Char : Z -> Z.

Lemma InitPair_int16_program (pair fg bg : Z) :
  0 <= COLOR_PAIRS <= 2 ^ 15 -> in_int16 pair ->
  pair <> 0 -> pair < COLOR_PAIRS ->
  Ncurses.InitPair COLOR_PAIRS pair fg bg
  = call_int (c_init_pair pair (cshort fg) (cshort bg))
    ≫= (fun r => if r =? ERR then Return (Some "Failed to init color pair")
                 else Return None).
Proof.
  intros Hcp Hp Hne Hlt. unfold Ncurses.InitPair, in_int16 in *.
  assert (Hc : (pair =? 0)
               || (cshort (cint (cint COLOR_PAIRS - 1)) <? cshort pair) = false).
  { apply orb_false_iff. split.
    - apply Z.eqb_neq, Hne.
    - rewrite (cint_id COLOR_PAIRS) by (unfold in_cint; lia).
      rewrite (cint_id (COLOR_PAIRS - 1)) by (unfold in_cint; lia).
      rewrite (cshort_id pair) by (unfold in_int16; lia).
      rewrite (cshort_id (COLOR_PAIRS - 1)) by (unfold in_int16; lia).
      apply Z.ltb_ge. lia. }
  rewrite Hc, (cshort_id pair) by (unfold in_int16; lia).
  reflexivity.
Qed.

Local Abbreviation harmless := (Wide.harmless exec xexec).
Local Abbreviation dies_quietly := (Wide.dies_quietly exec xexec).

Lemma harmless_then_dies {A B : Type} (f : fault) (p : wide A)
    (k : A -> wide B) :
  harmless p -> (forall a : A, dies_quietly f (k a)) ->
  dies_quietly f (wbind p k).
Proof.
  intros Hp Hk s. destruct (Hp s) as [Hcalls Hends].
  rewrite wcalls_wbind, wrun_wbind.
  destruct (wrun exec xexec p s) as [[[a|e] s1]|] eqn:Hrun.
  - destruct (Hk a s1) as [Hkcalls Hkends]. split.
    + apply Forall_app. split; assumption.
    + exact Hkends.
  - destruct (Hends _ _ eq_refl) as [a Ha]. discriminate Ha.
  - split; [rewrite app_nil_r; assumption | discriminate].
Qed.

Lemma StartColor_harmless : harmless StartColor.
Proof.
  intros s. unfold StartColor. cbn [wrun wcalls].
  destruct (xexec c_has_colors s) as [[has s1]|].
  - destruct (has =? 0); cbn [wrun wcalls].
    + split; [repeat constructor | intros o s' [= <- <-]; eauto].
    + destruct (xexec c_start_color s1) as [[r s2]|].
      * destruct (cint r =? ERR); cbn [wrun wcalls];
          (split; [repeat constructor | intros o s' [= <- <-]; eauto]).
      * split; [repeat constructor | discriminate].
  - split; [repeat constructor | discriminate].
Qed.

Lemma Raw_harmless (on : bool) : harmless (Raw on).
Proof.
  intros s. destruct on; unfold Raw; cbn [wrun wcalls];
    match goal with |- context [xexec ?c s] => destruct (xexec c s) as [[r s1]|] end;
    cbn [wrun wcalls];
    (split; [repeat constructor | try discriminate; intros o s' [= <- <-]; eauto]).
Qed.

Lemma Echo_harmless (on : bool) : harmless (Echo on).
Proof.
  intros s. destruct on; unfold Echo; cbn [wrun wcalls];
    match goal with |- context [xexec ?c s] => destruct (xexec c s) as [[r s1]|] end;
    cbn [wrun wcalls];
    (split; [repeat constructor | try discriminate; intros o s' [= <- <-]; eauto]).
Qed.

Lemma InitPair_harmless (pair fg bg : Z) :
  harmless (lift (Ncurses.InitPair COLOR_PAIRS pair fg bg)).
Proof.
  intros s. unfold Ncurses.InitPair, call_int.
  destruct ((pair =? 0)
            || (cshort (cint (cint COLOR_PAIRS - 1)) <? cshort pair)).
  - cbn [lift wrun wcalls].
    split; [constructor | intros o s' [= <- <-]; eauto].
  - cbv beta iota delta [mbind go_bind bind lift]. cbn [wrun wcalls].
    destruct (exec _ s) as [[r s1]|].
    + destruct (cint r =? ERR); cbn [lift wrun wcalls];
        (split; [repeat constructor | intros o s' [= <- <-]; eauto]).
    + split; [repeat constructor | discriminate].
Qed.

Lemma pair_255_then_Error_dies {B : Type} (fg bg : Z)
    (k : string -> wide B) :
  256 <= COLOR_PAIRS <= 2 ^ 15 ->
  (forall (fg bg : Z) (s0 s1 : S) (r : Z),
     exec (c_init_pair 255 fg bg) s0 = Some (r, s1) -> cint r <> ERR) ->
  dies_quietly (Go_panic NilDereference)
    (wbind (lift (Ncurses.InitPair COLOR_PAIRS 255 fg bg))
       (fun err => wbind (Error err) k)).
Proof.
  intros Hcp Hok s.
  rewrite InitPair_int16_program by (unfold in_int16; lia).
  unfold call_int.
  cbv beta iota delta [mbind go_bind bind lift]. cbn [wbind wrun wcalls].
  destruct (exec (c_init_pair 255 (cshort fg) (cshort bg)) s)
    as [[r s1]|] eqn:Hexec.
  - pose proof (Hok _ _ _ _ _ Hexec) as Hne.
    apply Z.eqb_neq in Hne. rewrite Hne.
    cbn [lift wbind Error wrun wcalls].
    split; [repeat constructor | intros o s' [= <- <-]; reflexivity].
  - split; [repeat constructor | discriminate].
Qed.

(** X15.  The colour example counts on [InitPair(255, ...)] failing.  On
    a terminal with 256 to 32768 pairs, where [init_pair] takes pair
    255, the error is nil and [err.Error()] panics: the example writes
    nothing at all, and if it ends, it ends in that panic, after the
    deferred [End] has called [endwin].  (With more than 32768 pairs
    the bound of [InitPair] no longer fits a C short, and the pair may
    be rejected after all.) *)
Theorem colour_example_panics_when_pair_255_is_valid (s : S) :
  256 <= COLOR_PAIRS <= 2 ^ 15 ->
  (forall (fg bg : Z) (s0 s1 : S) (r : Z),
     exec (c_init_pair 255 fg bg) s0 = Some (r, s1) -> cint r <> ERR) ->
  Forall (fun c => writes c = false)
    (wcalls exec xexec
       (main chtype_bits COLOR_PAIRS Sprintf C_BLACK C_BLUE C_CYAN C_WHITE
          MovePrint Char) s) /\
  forall (o : ending unit) (s' : S),
    wrun exec xexec
      (main chtype_bits COLOR_PAIRS Sprintf C_BLACK C_BLUE C_CYAN C_WHITE
         MovePrint Char) s = Some (o, s') ->
    o = Faulted (Go_panic NilDereference) /\
    last (wcalls exec xexec
            (main chtype_bits COLOR_PAIRS Sprintf C_BLACK C_BLUE C_CYAN
               C_WHITE MovePrint Char) s)
    = Some (ext_call c_endwin).
Proof.
  intros Hcp Hok. unfold main, mbind, wide_bind.
  assert (Hbody : forall stdscr : Window,
    dies_quietly (Go_panic NilDereference)
      (wbind StartColor (fun _ =>
       wbind (Raw true) (fun _ =>
       wbind (Echo true) (fun _ =>
       wbind (lift (Ncurses.InitPair COLOR_PAIRS 1 C_BLUE C_WHITE)) (fun _ =>
       wbind (lift (Ncurses.InitPair COLOR_PAIRS 2 C_BLACK C_CYAN)) (fun _ =>
       wbind (lift (Ncurses.InitPair COLOR_PAIRS 255 C_BLACK C_CYAN)) (fun err =>
       wbind (Error err) (fun text =>
       wbind (lift (Print Sprintf stdscr
                      [I_string "An intentional error: %s"; I_string text]))
         (fun _ =>
       wbind (Keypad stdscr true) (fun _ =>
       wbind (MovePrint stdscr 12 30 "Hello, World!!!") (fun _ =>
       wbind (lift (Refresh stdscr)) (fun _ =>
       wbind (lift (GetChar stdscr [])) (fun _ =>
       wbind (lift (Ncurses.ColorPair Char 2)) (fun attr =>
       wbind (Background chtype_bits stdscr attr) (fun _ =>
       wbind (lift (ColorOn stdscr x01)) (fun _ =>
       wbind (MovePrint stdscr 13 30 "Hello, World in Color!!!") (fun _ =>
       wbind (lift (ColorOff stdscr x01)) (fun _ =>
       wbind (lift (Refresh stdscr)) (fun _ =>
       wbind (lift (GetChar stdscr [])) (fun _ => Ret tt))))))))))))))))))))).
  { intros stdscr.
    apply harmless_then_dies; [apply StartColor_harmless | intros _].
    apply harmless_then_dies; [apply Raw_harmless | intros _].
    apply harmless_then_dies; [apply Echo_harmless | intros _].
    apply harmless_then_dies; [apply InitPair_harmless | intros _].
    apply harmless_then_dies; [apply InitPair_harmless | intros _].
    apply pair_255_then_Error_dies; assumption. }
  unfold Init. cbn [wbind wrun wcalls].
  destruct (xexec c_initscr s) as [[p s1]|];
    [|split; [repeat constructor | discriminate]].
  destruct (win {| win := p |} =? NULL); cbn [wbind fst];
    rewrite wcalls_defer, wrun_defer;
    destruct (Hbody {| win := p |} s1) as [Hcalls Hends];
    (destruct (wrun exec xexec _ s1) as [[ob s2]|] eqn:Hrun;
     [ pose proof (Hends _ _ eq_refl) as ->;
       unfold End; cbn [wbind wrun wcalls];
       split;
       [ constructor; [reflexivity|];
         apply Forall_app; split; [assumption|];
         destruct (xexec c_endwin s2) as [[? ?]|]; repeat constructor
       | destruct (xexec c_endwin s2) as [[r s3]|]; [|discriminate];
         cbn [wrun]; intros o s' [= <- <-]; split; [reflexivity|];
         rewrite app_comm_cons; apply last_snoc ]
     | split; [|discriminate];
       constructor; [reflexivity|]; rewrite app_nil_r; assumption ]).
Qed.

Lemma wrun_answers {A : Type} (p : wide A) (s : S) :
  (forall c s0, is_Some (exec c s0)) ->
  (forall c s0, is_Some (xexec c s0)) ->
  is_Some (wrun exec xexec p s).
Proof.
  intros Hb Hx. revert s.
  induction p as [a|e|c k IH|c k IH]; intros s; cbn [wrun].
  - eexists; reflexivity.
  - eexists; reflexivity.
  - destruct (Hb c s) as [[r s'] ->]. apply IH.
  - destruct (Hx c s) as [[r s'] ->]. apply IH.
Qed.

Lemma harmless_then_reaches {A B : Type} (p : wide A) (k : A -> wide B)
    (c : anycall) (s : S) :
  (forall c s0, is_Some (exec c s0)) ->
  (forall c s0, is_Some (xexec c s0)) ->
  harmless p ->
  (forall (a : A) (s' : S), c ∈ wcalls exec xexec (k a) s') ->
  c ∈ wcalls exec xexec (wbind p k) s.
Proof.
  intros Hb Hx Hp Hk. rewrite wcalls_wbind. apply elem_of_app. right.
  destruct (wrun_answers p s Hb Hx) as [[o s'] Hrun]. rewrite Hrun.
  destruct (proj2 (Hp s) o s' Hrun) as [a ->]. apply Hk.
Qed.

(** X16.  With 255 pairs or fewer the colour example does what its
    comment says: [InitPair(255, ...)] is rejected before any
    registration, and the example writes "An intentional error: " with
    the text of that rejection at the cursor of the standard screen, as
    long as the native library answers its calls. *)
Theorem colour_example_prints_the_rejection (s s1 : S) (p : Z) :
  (forall c s0, is_Some (exec c s0)) ->
  (forall c s0, is_Some (xexec c s0)) ->
  0 <= COLOR_PAIRS <= 255 ->
  xexec c_initscr s = Some (p, s1) ->
  base_call
    (c_waddstr p
       (Sprintf "An intentional error: %s"
          [I_string "Invalid color pair selected"]))
  ∈ wcalls exec xexec
      (main chtype_bits COLOR_PAIRS Sprintf C_BLACK C_BLUE C_CYAN C_WHITE
         MovePrint Char) s.
Proof.
  intros Hb Hx Hcp Hinit. unfold main, mbind, wide_bind.
  assert (Hrej : Ncurses.InitPair COLOR_PAIRS 255 C_BLACK C_CYAN
                 = Return (Some "Invalid color pair selected")).
  { apply InitPair_int16_rejects; [lia | unfold in_int16; lia | lia]. }
  unfold Init. cbn [wbind wcalls]. rewrite Hinit.
  apply elem_of_cons. right.
  destruct (win {| win := p |} =? NULL); cbn [wbind fst];
    rewrite wcalls_defer; apply elem_of_app; left;
    (apply harmless_then_reaches; [assumption | assumption
      | apply StartColor_harmless | intros _ ?]);
    (apply harmless_then_reaches; [assumption | assumption
      | apply Raw_harmless | intros _ ?]);
    (apply harmless_then_reaches; [assumption | assumption
      | apply Echo_harmless | intros _ ?]);
    (apply harmless_then_reaches; [assumption | assumption
      | apply InitPair_harmless | intros _ ?]);
    (apply harmless_then_reaches; [assumption | assumption
      | apply InitPair_harmless | intros _ ?]);
    rewrite Hrej; cbn [lift wbind Error];
    rewrite wcalls_wbind; apply elem_of_app; left;
    apply elem_of_cons; left; reflexivity.
Qed.


End ColourExample.

(* ===================================================================== *)
(** ** Further theorems at work                                           *)
(* ===================================================================== *)

(** X6 at work: pair -1 on a terminal with 256 pairs goes through to
    [init_pair]. *)
Lemma InitPair_minus_1_of_256_registers :
  0 <= 256 <= 2 ^ 15 /\ in_int16 (-1) /\ -1 <> 0 /\ -1 < 256 /\
  Observe.same (Ncurses.InitPair 256 (-1) 0 6)
    (Observe.one_call (c_init_pair (-1) (cshort 0) (cshort 6))
       (fun r => if cint r =? ERR then Some "Failed to init color pair"
                 else None)).
Proof.
  assert (H1 : 0 <= 256 <= 2 ^ 15) by lia.
  assert (H2 : in_int16 (-1)) by (unfold in_int16; lia).
  assert (H3 : -1 <> 0) by lia.
  assert (H4 : -1 < 256) by lia.
  repeat (split; [assumption|]).
  exact (InitPair_int16_registers_below_COLOR_PAIRS 256 (-1) 0 6
           H1 H2 H3 H4).
Defined.

(** X7 at work: pair 255 on a terminal with 256 pairs. *)
Lemma InitPair_255_of_256_registers :
  0 <= 256 < 2 ^ 31 /\ byte_val xff <> 0 /\ byte_val xff < 256 /\
  Observe.same (Goncurses.InitPair 256 xff 0 6)
    (Observe.one_call (c_init_pair (byte_val xff) (cshort 0) (cshort 6))
       (fun r => if cint r =? ERR then Some "Failed to init color pair"
                 else None)).
Proof.
  assert (H1 : 0 <= 256 < 2 ^ 31) by lia.
  assert (H2 : byte_val xff <> 0) by (vm_compute; discriminate).
  assert (H3 : byte_val xff < 256) by (vm_compute; reflexivity).
  repeat (split; [assumption|]).
  exact (InitPair_byte_registers_below_COLOR_PAIRS 256 xff 0 6 H1 H2 H3).
Defined.

(** X8 at work: pair 1 on a terminal with 65536 pairs. *)
Lemma InitPair_1_of_65536_rejected :
  2 ^ 15 < 65536 <= 2 ^ 16 /\ 0 <= 1 < 2 ^ 15 /\
  Ncurses.InitPair 65536 1 0 6 = Return (Some "Invalid color pair selected").
Proof.
  assert (H1 : 2 ^ 15 < 65536 <= 2 ^ 16) by lia.
  assert (H2 : 0 <= 1 < 2 ^ 15) by lia.
  repeat (split; [assumption|]).
  exact (InitPair_int16_bound_wraps 65536 1 0 6 H1 H2).
Defined.

(** X10 at work: a native side that answers 0 to everything has no
    mouse. *)
Lemma MouseMask_on_mouseless_script :
  Script.always 0 c_has_mouse tt = Some (0, tt) /\
  run (Script.always 0) (Goncurses.MouseMask 32 7 0) tt
  = Some (Returned 0, tt) /\
  calls (Script.always 0) (Goncurses.MouseMask 32 7 0) tt = [c_has_mouse] /\
  calls (Script.always 0) (Ncurses.MouseMask 32 7 0) tt
  = [c_mousemask (wrap_unsigned 32 7) 0].
Proof.
  assert (H : Script.always 0 c_has_mouse tt = Some (0, tt)) by reflexivity.
  split; [assumption|].
  exact (MouseMask_without_mouse_leaves_mask_alone (Script.always 0)
           32 7 0 tt tt H).
Defined.

(** X11 at work: a terminal that answers 0 to [has_colors]. *)
Lemma StartColor_on_monochrome_script :
  Wide.xalways 0 Stage.event "none" Wide.c_has_colors tt = Some (0, tt) /\
  Wide.wrun (Script.always 0) (Wide.xalways 0 Stage.event "none")
    Wide.StartColor tt
  = Some (Wide.Finished (Some "Terminal does not support colors"), tt) /\
  Wide.wcalls (Script.always 0) (Wide.xalways 0 Stage.event "none")
    Wide.StartColor tt
  = [Wide.ext_call Wide.c_has_colors].
Proof.
  assert (H : Wide.xalways 0 Stage.event "none" Wide.c_has_colors tt
              = Some (0, tt)) by reflexivity.
  split; [assumption|].
  exact (StartColor_without_colors (Script.always 0)
           (Wide.xalways 0 Stage.event "none") tt tt H).
Defined.

(** X12 at work: no mouse, no [getmouse]. *)
Lemma GetMouse_on_mouseless_script :
  Script.always 0 c_has_mouse tt = Some (0, tt) /\
  Wide.wrun (Script.always 0) (Wide.xalways 0 Stage.event "none")
    (Wide.GetMouse 32) tt
  = Some (Wide.Finished (None, Some "Mouse support not enabled"), tt) /\
  Wide.wcalls (Script.always 0) (Wide.xalways 0 Stage.event "none")
    (Wide.GetMouse 32) tt
  = [Wide.base_call c_has_mouse].
Proof.
  assert (H : Script.always 0 c_has_mouse tt = Some (0, tt)) by reflexivity.
  split; [assumption|].
  exact (GetMouse_without_mouse (Script.always 0)
           (Wide.xalways 0 Stage.event "none") 32 tt tt H).
Defined.

(** X13 at work: with a mouse and the staged event pending, [GetMouse]
    hands back x, y, z, id and button state. *)
Lemma GetMouse_on_staged_event :
  Wide.wrun (Script.always 1) (Wide.xalways 0 Stage.event "none")
    (Wide.GetMouse 32) tt
  = Some (Wide.Finished (Some [7; 3; 0; 0; 2], None), tt) /\
  exists (l : option (list Z)) (e : error),
    Wide.Finished (Some [7; 3; 0; 0; 2], None) = Wide.Finished (l, e) /\
    ((l = None /\ e <> None) \/
     (e = None /\
      exists (status : Z) (ev : Wide.MEVENT) (s1 : unit),
        Wide.xalways 0 Stage.event "none" Wide.c_getmouse s1
        = Some ((status, ev), tt) /\
        cint status = OK /\
        l = Some [goint (cint (Wide.ev_x ev)); goint (cint (Wide.ev_y ev));
                  goint (cint (Wide.ev_z ev)); goint (cshort (Wide.ev_id ev));
                  goint (wrap_unsigned 32 (Wide.ev_bstate ev))])).
Proof.
  assert (H : Wide.wrun (Script.always 1) (Wide.xalways 0 Stage.event "none")
                (Wide.GetMouse 32) tt
              = Some (Wide.Finished (Some [7; 3; 0; 0; 2], None), tt))
    by (vm_compute; reflexivity).
  split; [assumption|].
  exact (GetMouse_slice_or_error (Script.always 1)
           (Wide.xalways 0 Stage.event "none") 32 tt tt _ H).
Defined.

(** X14 at work: [GetString(0)] on a 64-bit machine. *)
Lemma GetString_0_panics :
  0 <= 2 ^ 63 - 1 /\ 0 <= 0 /\
  Wide.wrun (Script.always 0) (Wide.xalways 0 Stage.event "none")
    (Wide.GetString (2 ^ 63 - 1) {| Goncurses.win := 1 |} 0) tt
  = Some (Wide.Faulted (if 0 <? 0 then Wide.MakeSliceLenOutOfRange
                        else Wide.Go_panic IndexOutOfRange), tt) /\
  Wide.wcalls (Script.always 0) (Wide.xalways 0 Stage.event "none")
    (Wide.GetString (2 ^ 63 - 1) {| Goncurses.win := 1 |} 0) tt = [].
Proof.
  assert (H1 : 0 <= 2 ^ 63 - 1) by lia.
  assert (H2 : 0 <= 0) by lia.
  repeat (split; [assumption|]).
  exact (GetString_needs_positive_length (Script.always 0)
           (Wide.xalways 0 Stage.event "none") (2 ^ 63 - 1)
           {| Goncurses.win := 1 |} 0 tt H1 H2).
Defined.

(** X15 at work: the colour example on a terminal with 256 pairs whose
    native side answers [OK] to everything. *)
Lemma colour_example_on_256_pairs :
  256 <= 256 <= 2 ^ 15 /\
  (forall (fg bg : Z) (s0 s1 : unit) (r : Z),
     Script.always 0 (c_init_pair 255 fg bg) s0 = Some (r, s1) ->
     cint r <> ERR) /\
  Forall (fun c => Wide.writes c = false)
    (Wide.wcalls (Script.always 0) (Wide.xalways 1 Stage.event "none")
       (Wide.main 32 256 Stage.Sprintf Stage.C_BLACK Stage.C_BLUE
          Stage.C_CYAN Stage.C_WHITE Stage.MovePrint Stage.Char) tt) /\
  forall (o : Wide.ending unit) (s' : unit),
    Wide.wrun (Script.always 0) (Wide.xalways 1 Stage.event "none")
      (Wide.main 32 256 Stage.Sprintf Stage.C_BLACK Stage.C_BLUE
         Stage.C_CYAN Stage.C_WHITE Stage.MovePrint Stage.Char) tt
    = Some (o, s') ->
    o = Wide.Faulted (Wide.Go_panic NilDereference) /\
    last (Wide.wcalls (Script.always 0) (Wide.xalways 1 Stage.event "none")
            (Wide.main 32 256 Stage.Sprintf Stage.C_BLACK Stage.C_BLUE
               Stage.C_CYAN Stage.C_WHITE Stage.MovePrint Stage.Char) tt)
    = Some (Wide.ext_call Wide.c_endwin).
Proof.
  assert (H1 : 256 <= 256 <= 2 ^ 15) by lia.
  assert (H2 : forall (fg bg : Z) (s0 s1 : unit) (r : Z),
             Script.always 0 (c_init_pair 255 fg bg) s0 = Some (r, s1) ->
             cint r <> ERR).
  { intros fg bg s0 s1 r [= <- _]. vm_compute. discriminate. }
  repeat (split; [assumption|]).
  exact (colour_example_panics_when_pair_255_is_valid (Script.always 0)
           (Wide.xalways 1 Stage.event "none") 32 256 Stage.Sprintf
           Stage.C_BLACK Stage.C_BLUE Stage.C_CYAN Stage.C_WHITE
           Stage.MovePrint Stage.Char tt H1 H2).
Defined.

(** X16 at work: the colour example on a terminal with 64 pairs. *)
Lemma colour_example_on_64_pairs :
  (forall c s0, is_Some (Script.always 0 c s0)) /\
  (forall c s0, is_Some (Wide.xalways 1 Stage.event "none" c s0)) /\
  0 <= 64 <= 255 /\
  Wide.xalways 1 Stage.event "none" Wide.c_initscr tt = Some (1, tt) /\
  Wide.base_call
    (c_waddstr 1
       (Stage.Sprintf "An intentional error: %s"
          [Goncurses.I_string "Invalid color pair selected"]))
  ∈ Wide.wcalls (Script.always 0) (Wide.xalways 1 Stage.event "none")
      (Wide.main 32 64 Stage.Sprintf Stage.C_BLACK Stage.C_BLUE
         Stage.C_CYAN Stage.C_WHITE Stage.MovePrint Stage.Char) tt.
Proof.
  assert (H1 : forall c s0, is_Some (Script.always 0 c s0))
    by (intros c s0; eexists; reflexivity).
  assert (H2 : forall c s0,
             is_Some (Wide.xalways 1 Stage.event "none" c s0))
    by (intros c s0; eexists; reflexivity).
  assert (H3 : 0 <= 64 <= 255) by lia.
  assert (H4 : Wide.xalways 1 Stage.event "none" Wide.c_initscr tt
               = Some (1, tt)) by reflexivity.
  repeat (split; [assumption|]).
  exact (colour_example_prints_the_rejection (Script.always 0)
           (Wide.xalways 1 Stage.event "none") 32 64 Stage.Sprintf
           Stage.C_BLACK Stage.C_BLUE Stage.C_CYAN Stage.C_WHITE
           Stage.MovePrint Stage.Char tt tt 1 H1 H2 H3 H4).
Defined.
